(** * treeifier-utils: render strategies over treeifier nodes

    A shallow embedding of [src/treeifier-utils.ts] (class [TreeifierUtils])
    and the properties of its four node processors, of the colour registry
    and of the debugging entry points.

    The class only formats nodes that the treeifier core library hands to
    it.  What belongs to that library ([TreeifierNode], the enum
    [TreeifierNodeTypes], the [Treeifier] engine) and to chalk is taken as
    data or as a parameter; what the class itself computes is translated
    line by line. *)

From Stdlib Require Import Strings.String Strings.Ascii Lists.List ZArith Bool Lia.
From Stdlib Require Import Numbers.DecimalString Numbers.DecimalPos Numbers.DecimalZ.
Import ListNotations.

Local Open Scope string_scope.
Set Warnings "-register-all".

(** ** Text fragments *)

(** The line feed and carriage return characters and the double quote,
    which the processors splice into their output. *)
Definition LF : ascii := ascii_of_nat 10.
Definition CR : ascii := ascii_of_nat 13.
Definition nl : string := String LF EmptyString.
Definition dq : string := String (ascii_of_nat 34) EmptyString.

Definition string_is_empty (s : string) : bool :=
  match s with
  | EmptyString => true
  | String _ _ => false
  end.

(** [String.prototype.substr(0, n)]. *)
Definition substr0 (n : nat) (s : string) : string := substring 0 n s.

(** The replacement text of the debug view: two characters, a backslash
    and the letter n (a string of this language has no escapes). *)
Definition escaped_nl : string := "\n".

(** [s.replace(/\r?\n|\r/g, '\\n')]: every CRLF, LF or CR becomes
    [escaped_nl]. *)
Fixpoint replace_line_breaks (s : string) : string :=
  match s with
  | EmptyString => EmptyString
  | String c rest =>
      if Ascii.eqb c CR then
        match rest with
        | String c' rest' =>
            if Ascii.eqb c' LF then escaped_nl ++ replace_line_breaks rest'
            else escaped_nl ++ replace_line_breaks rest
        | EmptyString => escaped_nl
        end
      else if Ascii.eqb c LF then escaped_nl ++ replace_line_breaks rest
      else String c (replace_line_breaks rest)
  end.

(** Decidable suffix and infix tests, used to read rendered lines. *)
Fixpoint ends_with (suffix s : string) : bool :=
  if String.eqb s suffix then true
  else match s with
       | EmptyString => false
       | String _ rest => ends_with suffix rest
       end.

Fixpoint contains (needle s : string) : bool :=
  if String.prefix needle s then true
  else match s with
       | EmptyString => false
       | String _ rest => contains needle rest
       end.

(** ** JavaScript values

    [TreeifierNode.value] and [TreeifierNode.processResult] are typed [any].
    The model covers undefined, null, booleans, integer-valued numbers,
    strings, arrays and plain objects (an association list of own
    properties). *)
Inductive JsValue : Type :=
| JsUndefined
| JsNull
| JsBoolean (b : bool)
| JsNumber (n : Z)
| JsString (s : string)
| JsArray (elements : list JsValue)
| JsObject (properties : list (string * JsValue)).

(** A completion is a normal result or a thrown [TypeError] (reading a
    property of [null] or [undefined]). *)
Inductive Completion (A : Type) : Type :=
| Normal (a : A)
| TypeError.
Arguments Normal {A} a.
Arguments TypeError {A}.

(** The decimal numeral of an integer.  This is the text of a number of
    the language for the safe integers, up to [max_safe_integer] in absolute
    value; beyond them the language rounds and, from 1e21, writes an
    exponent, which is outside the model (see [converts]). *)
Definition number_to_string (n : Z) : string :=
  NilZero.string_of_int (Z.to_int n).

(** [ToString] on the modelled values; an array is its elements joined by a
    comma with [null] and [undefined] shown as nothing, a plain object is
    the fixed text of [Object.prototype.toString].  The function is total:
    it is the conversion of the language on the values that [converts]
    accepts, and only there. *)
Fixpoint ToString (v : JsValue) : string :=
  match v with
  | JsUndefined => "undefined"
  | JsNull => "null"
  | JsBoolean true => "true"
  | JsBoolean false => "false"
  | JsNumber n => number_to_string n
  | JsString s => s
  | JsArray elements =>
      String.concat ","
        (map (fun e => match e with
                       | JsUndefined | JsNull => EmptyString
                       | _ => ToString e
                       end) elements)
  | JsObject _ => "[object Object]"
  end.

(** [Number.MAX_SAFE_INTEGER]. *)
Definition max_safe_integer : Z := 9007199254740991.

(** An own property of that name. *)
Definition has_own (name : string) (properties : list (string * JsValue))
    : bool :=
  existsb (fun kv => String.eqb name (fst kv)) properties.

(** The values on which the conversion to a primitive completes normally
    and [ToString] gives its text.  No modelled value is callable, so an
    object with an own [toString] property has no usable conversion and
    the language throws a [TypeError] for it; an array converts through its
    elements; a number is written out in full only if it is a safe
    integer. *)
Fixpoint converts (v : JsValue) : bool :=
  match v with
  | JsNumber n => (Z.abs n <=? max_safe_integer)%Z
  | JsArray elements => forallb converts elements
  | JsObject properties => negb (has_own "toString" properties)
  | _ => true
  end.

(** [ToBoolean]: what [x && ...] tests. *)
Definition ToBoolean (v : JsValue) : bool :=
  match v with
  | JsUndefined | JsNull => false
  | JsBoolean b => b
  | JsNumber n => negb (n =? 0)%Z
  | JsString s => negb (string_is_empty s)
  | JsArray _ | JsObject _ => true
  end.

(** [a ?? b]. *)
Definition nullish (a b : JsValue) : JsValue :=
  match a with
  | JsUndefined | JsNull => b
  | _ => a
  end.

Fixpoint assoc (k : string) (l : list (string * JsValue)) : JsValue :=
  match l with
  | [] => JsUndefined
  | (k', v) :: rest => if String.eqb k k' then v else assoc k rest
  end.

(** [v.name] for a property [name] other than [length]. *)
Definition get_property (name : string) (v : JsValue) : Completion JsValue :=
  match v with
  | JsUndefined | JsNull => TypeError
  | JsObject properties => Normal (assoc name properties)
  | _ => Normal JsUndefined
  end.

(** [v.length]. *)
Definition get_length (v : JsValue) : Completion JsValue :=
  match v with
  | JsUndefined | JsNull => TypeError
  | JsString s => Normal (JsNumber (Z.of_nat (String.length s)))
  | JsArray elements => Normal (JsNumber (Z.of_nat (List.length elements)))
  | JsObject properties => Normal (assoc "length" properties)
  | _ => Normal JsUndefined
  end.

Section Coercions.

(** [StringToNumber] of the language as far as the class needs it: the
    class only compares the result with 0 and with 1, so any integer that
    compares with them as the numeric value of the text does stands for
    that value; [None] is NaN. *)
Variable StringToNumber : string -> option Z.

(** [ToNumber]; arrays and plain objects go through [ToPrimitive], which
    is their [ToString] where they convert (see [converts]). *)
Definition ToNumber (v : JsValue) : option Z :=
  match v with
  | JsUndefined => None
  | JsNull => Some 0%Z
  | JsBoolean b => Some (if b then 1 else 0)%Z
  | JsNumber n => Some n
  | JsString s => StringToNumber s
  | JsArray _ | JsObject _ => StringToNumber (ToString v)
  end.

(** [v < k] for a number literal [k]: false when [v] converts to NaN.
    It is the comparison of the language on the values that [converts]
    accepts. *)
Definition less_than (v : JsValue) (k : Z) : bool :=
  match ToNumber v with
  | Some n => (n <? k)%Z
  | None => false
  end.

(** [v == true], the loose equality: a boolean is compared as such,
    [null] and [undefined] equal neither boolean, anything else is
    compared as a number with 1.  It is the comparison of the language on
    the values that [converts] accepts. *)
Definition loosely_equals_true (v : JsValue) : bool :=
  match v with
  | JsBoolean b => b
  | JsUndefined | JsNull => false
  | _ => match ToNumber v with
         | Some n => (n =? 1)%Z
         | None => false
         end
  end.

End Coercions.

(** ** The collaborators' data *)

(** A numeric enum at run time: an object that maps each member's number to
    its name and each name to its number.  [member_names] lists the names
    in declaration order; [arrayofobjects] is the number of the member of
    that name. *)
Record EnumObject : Type := {
  member_names : list string;
  arrayofobjects : Z
}.

Fixpoint enum_lookup (names : list string) (i : Z) (k : string) : JsValue :=
  match names with
  | [] => JsUndefined
  | m :: rest =>
      if String.eqb k (number_to_string i) then JsString m
      else if String.eqb k m then JsNumber i
      else enum_lookup rest (i + 1)%Z k
  end.

(** [E[k]]: the property key is [ToString k].  The members of the enum
    itself are looked up; a key that names a property every object inherits
    ([constructor] and the like) is outside the model. *)
Definition enum_get (E : EnumObject) (k : JsValue) : JsValue :=
  enum_lookup (member_names E) 0%Z (ToString k).

(** The fields of [TreeifierNode] that the processors read.  A node is
    seen to the depth the processors look: its parent, the node it refers
    back to, its ancestors and its children are nodes themselves.
    [toString] holds what the node's [toString()] method returns. *)
Inductive TreeifierNode : Type := mkTreeifierNode {
  key : string;
  value : JsValue;
  parent : option TreeifierNode;
  nodeType : Z;
  ancestors : list TreeifierNode;
  isCircular : bool;
  circularRefNode : option TreeifierNode;
  isLeaf : bool;
  isBranch : bool;
  prefix : string;
  joint : string;
  children : list TreeifierNode;
  path : string;
  processResult : JsValue;
  toString : string
}.

(** [o?.key] and [o?.path]. *)
Definition optional_key (o : option TreeifierNode) : JsValue :=
  match o with
  | Some n => JsString (key n)
  | None => JsUndefined
  end.

Definition optional_path (o : option TreeifierNode) : JsValue :=
  match o with
  | Some n => JsString (path n)
  | None => JsUndefined
  end.

(** A chalk style is a function from text to text. *)
Definition Style : Type := string -> string.

(** The four chalk colours the class takes its defaults from. *)
Record Chalk : Type := {
  blue : Style;
  white : Style;
  greenBright : Style;
  redBright : Style
}.

(** ** The class [TreeifierUtils] *)

Module TreeifierUtils.

(** The static, assignable members of the class. *)
Record Statics : Type := {
  StructureColor : Style;
  KeyColor : Style;
  ValueColor : Style;
  CircularColor : Style
}.

Definition set_StructureColor (f : Style) (st : Statics) : Statics :=
  {| StructureColor := f; KeyColor := KeyColor st;
     ValueColor := ValueColor st; CircularColor := CircularColor st |}.
Definition set_KeyColor (f : Style) (st : Statics) : Statics :=
  {| StructureColor := StructureColor st; KeyColor := f;
     ValueColor := ValueColor st; CircularColor := CircularColor st |}.
Definition set_ValueColor (f : Style) (st : Statics) : Statics :=
  {| StructureColor := StructureColor st; KeyColor := KeyColor st;
     ValueColor := f; CircularColor := CircularColor st |}.
Definition set_CircularColor (f : Style) (st : Statics) : Statics :=
  {| StructureColor := StructureColor st; KeyColor := KeyColor st;
     ValueColor := ValueColor st; CircularColor := f |}.

(** A method body: it runs on the statics, completes normally or throws,
    and leaves the statics it ends with. *)
Definition M (A : Type) : Type := Statics -> Completion A * Statics.

Definition ret {A : Type} (a : A) : M A := fun st => (Normal a, st).

Definition bind {A B : Type} (c : M A) (k : A -> M B) : M B :=
  fun st =>
    match c st with
    | (Normal a, st') => k a st'
    | (TypeError, st') => (TypeError, st')
    end.

Definition lift {A : Type} (c : Completion A) : M A := fun st => (c, st).

(** [TreeifierUtils.XColor( s )]: read the static, apply it. *)
Definition call (member : Statics -> Style) (s : string) : M string :=
  fun st => (Normal (member st s), st).

(** [TreeifierUtils.XColor = f]. *)
Definition assign (update : Statics -> Statics) : M unit :=
  fun st => (Normal tt, update st).

Notation "x <- c ;; k" := (bind c (fun x => k))
  (at level 61, c at next level, right associativity).
Notation "c ;;; k" := (bind c (fun _ => k))
  (at level 61, right associativity).

Definition result_of {A : Type} (r : Completion A * Statics) : Completion A := fst r.
Definition statics_after {A : Type} (r : Completion A * Statics) : Statics := snd r.

(** A node processor, [NodeProcessorFunction] of the core library. *)
Definition NodeProcessorFunction : Type := TreeifierNode -> M string.

(** The [Treeifier] engine as the class uses it: [process] on an already
    built node, and [parse]. *)
Record Treeifier : Type := {
  process : TreeifierNode -> string -> NodeProcessorFunction -> M string;
  parse : JsValue -> option string -> option NodeProcessorFunction -> M TreeifierNode
}.

(** [child.processResult && ( result = result + '\n' + child.processResult )],
    for a cached result that [converts] accepts (the processors of the
    class cache texts). *)
Definition append_child (result : string) (child : TreeifierNode) : string :=
  if ToBoolean (processResult child)
  then result ++ nl ++ ToString (processResult child)
  else result.

(** [node.children.forEach( ... )] on the accumulator [result]. *)
Definition forEach_child (result : string) (l : list TreeifierNode) : string :=
  fold_left append_child l result.

Section Class.

Variable chalk : Chalk.
Variable TreeifierNodeTypes : EnumObject.
Variable StringToNumber : string -> option Z.
(** [new Treeifier()]. *)
Variable new_Treeifier : Treeifier.

Definition defaultStructureColor : Style := blue chalk.
Definition defaultKeyColor : Style := white chalk.
Definition defaultValueColor : Style := greenBright chalk.
Definition defaultCircularColor : Style := redBright chalk.

(** The statics as the class initialises them. *)
Definition initial : Statics :=
  {| StructureColor := defaultStructureColor;
     KeyColor := defaultKeyColor;
     ValueColor := defaultValueColor;
     CircularColor := defaultCircularColor |}.

Definition resetAllColors : M unit :=
  assign (set_StructureColor defaultStructureColor) ;;;
  assign (set_KeyColor defaultKeyColor) ;;;
  assign (set_ValueColor defaultValueColor) ;;;
  assign (set_CircularColor defaultCircularColor).

Definition nodeTypeToString (nodetype : JsValue) : JsValue :=
  enum_get TreeifierNodeTypes nodetype.

Definition defaultColoredTypesProcessor (node : TreeifierNode) : M string :=
  s1 <- call StructureColor (prefix node ++ joint node) ;;
  s2 <- call KeyColor (key node) ;;
  s3 <- call StructureColor " : " ;;
  s4 <- call ValueColor (ToString (nodeTypeToString (JsNumber (nodeType node)))) ;;
  let result := s1 ++ s2 ++ s3 ++ s4 in
  if isBranch node
  then ret (forEach_child result (children node))
  else ret result.

(** [' -> ' + node.circularRefNode?.key ?? '?'] parses as
    [(' -> ' + node.circularRefNode?.key) ?? '?']: the sum binds tighter
    than [??]. *)
Definition values_circular (node : TreeifierNode) : string :=
  if isCircular node
  then ToString
         (nullish
            (JsString (" -> " ++ ToString (optional_key (circularRefNode node))))
            (JsString "?"))
  else EmptyString.

Definition defaultColoredValuesProcessor (node : TreeifierNode) : M string :=
  let circular := values_circular node in
  let nodeValue := if isLeaf node then toString node else EmptyString in
  s1 <- call StructureColor (prefix node ++ joint node) ;;
  s2 <- call KeyColor (key node) ;;
  s3 <- call StructureColor
          (if string_is_empty nodeValue then EmptyString else " : ") ;;
  s4 <- call ValueColor nodeValue ;;
  s5 <- call CircularColor circular ;;
  let result := s1 ++ s2 ++ s3 ++ s4 ++ s5 in
  if isBranch node
  then ret (forEach_child result (children node))
  else ret result.

Definition defaultHTMLProcessor (node : TreeifierNode) : M string :=
  let result := EmptyString in
  let circularKey :=
    ToString (nullish (optional_key (circularRefNode node)) (JsString "?")) in
  let circularPath :=
    ToString (nullish (optional_path (circularRefNode node)) (JsString EmptyString)) in
  let circularLink :=
    if isCircular node
    then "<a href=" ++ dq ++ "#list@" ++ circularPath ++ dq ++ ">"
           ++ circularKey ++ "</a>"
    else circularKey in
  let circularReference :=
    if isCircular node
    then "<span class=" ++ dq ++ "circularlink" ++ dq ++ ">"
           ++ circularLink ++ "</span>"
    else EmptyString in
  let nodeTypeClass :=
    "nt_" ++ ToString (nodeTypeToString (JsNumber (nodeType node))) in
  let nodeKey :=
    match parent node with
    | Some p =>
        if (nodeType p =? arrayofobjects TreeifierNodeTypes)%Z
        then EmptyString
        else "<span class=" ++ dq ++ "key" ++ dq ++ ">" ++ key node ++ "</span>: "
    | None => "<span class=" ++ dq ++ "key" ++ dq ++ ">" ++ key node ++ "</span>: "
    end in
  let nodeValue :=
    if isLeaf node
    then "<span class=" ++ dq ++ "value"
           ++ (if isCircular node then " circular" else EmptyString)
           ++ dq ++ ">" ++ toString node ++ "</span> " ++ circularReference
    else EmptyString in
  let result :=
    match parent node with
    | Some _ =>
        "<li id=" ++ dq ++ path node ++ dq ++ " class=" ++ dq ++ "leaf "
          ++ nodeTypeClass ++ dq ++ ">" ++ nl ++ nodeKey ++ nodeValue
    | None => result
    end in
  let result :=
    if isBranch node
    then
      let listType :=
        if (nodeType node =? arrayofobjects TreeifierNodeTypes)%Z
        then "ol start=" ++ dq ++ "0" ++ dq
        else "ul" in
      let list :=
        "<" ++ listType ++ " id=" ++ dq ++ "list@" ++ path node ++ dq
          ++ " class=" ++ dq ++ "branch " ++ nodeTypeClass ++ dq ++ ">" in
      let list := forEach_child list (children node) in
      let list := list ++ nl ++ "</" ++ substr0 2 listType ++ ">" in
      result ++ nl ++ list
    else result in
  let result :=
    match parent node with
    | Some _ => result ++ nl ++ "</li>"
    | None => result
    end in
  ret result.

(** [( node.isCircular && node.circularRefNode ) ?
      node.circularRefNode.value.path ?? node.circularRefNode.key : '']. *)
Definition debug_circular (node : TreeifierNode) : Completion JsValue :=
  if isCircular node
  then match circularRefNode node with
       | Some ref =>
           match get_property "path" (value ref) with
           | Normal p => Normal (nullish p (JsString (key ref)))
           | TypeError => TypeError
           end
       | None => Normal (JsString EmptyString)
       end
  else Normal (JsString EmptyString).

(** [l.map( element => element.value.path )]. *)
Fixpoint map_value_path (l : list TreeifierNode) : Completion (list JsValue) :=
  match l with
  | [] => Normal []
  | element :: rest =>
      match get_property "path" (value element) with
      | Normal p =>
          match map_value_path rest with
          | Normal ps => Normal (p :: ps)
          | TypeError => TypeError
          end
      | TypeError => TypeError
      end
  end.

(** [Array.prototype.join] on values: [null] and [undefined] are shown
    as nothing. *)
Definition join_values (sep : string) (l : list JsValue) : string :=
  String.concat sep
    (map (fun e => match e with
                   | JsUndefined | JsNull => EmptyString
                   | _ => ToString e
                   end) l).

Definition is_null (v : JsValue) : bool :=
  match v with
  | JsNull => true
  | _ => false
  end.

Definition is_none {A : Type} (o : option A) : bool :=
  match o with
  | None => true
  | Some _ => false
  end.

Definition debugProcessor (node : TreeifierNode) : M string :=
  circular <- lift (debug_circular node) ;;
  let nodeValueString := JsString (toString node) in
  let nodeValueString :=
    if (key node =? "processResult")%string
    then JsString (replace_line_breaks (toString node))
    else nodeValueString in
  let nodeValueString :=
    if (key node =? "nodeType")%string
    then nodeTypeToString (value node)
    else nodeValueString in
  if (key node =? "ancestors")%string && is_none (circularRefNode node)
  then ret EmptyString
  else
    nodeValueString <-
      (if (key node =? "ancestors")%string
       then paths <- lift (map_value_path (ancestors node)) ;;
            ret (JsString ("[" ++ join_values ", " paths ++ "]"))
       else ret nodeValueString) ;;
    if (key node =? "circularRefIndex")%string
       && less_than StringToNumber (value node) 0
    then ret EmptyString
    else if (key node =? "circularRefNode")%string && is_null (value node)
    then ret EmptyString
    else if (key node =? "isCircular")%string
            && negb (loosely_equals_true StringToNumber (value node))
    then ret EmptyString
    else
      empty_children <-
        (if (key node =? "children")%string
         then len <- lift (get_length (value node)) ;;
              ret (less_than StringToNumber len 1)
         else ret false) ;;
      if (empty_children : bool)
      then ret EmptyString
      else
        s1 <- call StructureColor (prefix node ++ joint node) ;;
        s2 <- call KeyColor (key node) ;;
        s3 <- call ValueColor
                (if isLeaf node || (key node =? "ancestors")%string
                 then " " ++ ToString nodeValueString
                 else EmptyString) ;;
        s4 <- call CircularColor (" " ++ ToString circular) ;;
        let result := s1 ++ s2 ++ s3 ++ s4 in
        if isBranch node && negb (key node =? "ancestors")%string
        then ret (forEach_child result (children node))
        else ret result.

Definition debugResultNode (rootnode : TreeifierNode)
    (treeifier : option Treeifier) : M string :=
  let debugTreeifier :=
    match treeifier with
    | Some t => t
    | None => new_Treeifier
    end in
  process debugTreeifier rootnode ("debug@" ++ key rootnode) debugProcessor.

Definition debug (item : JsValue) (label : option string)
    (nodeProcessorCallback : option NodeProcessorFunction) : M string :=
  let treeifier := new_Treeifier in
  rootnode <- parse treeifier item label nodeProcessorCallback ;;
  debugResultNode rootnode (Some treeifier).

(** *** The views in the words of their description

    Each processor is compared below with a direct description of the
    text it returns: the node's own line (or markup) and a block holding
    the children's cached results. *)

(** A style that keeps text: it returns no empty text for a non-empty
    one, as a decoration that wraps its argument does. *)
Definition keeps_text (f : Style) : Prop :=
  forall s : string, s <> EmptyString -> f s <> EmptyString.

(** The node with other children. *)
Definition with_children (node : TreeifierNode) (cs : list TreeifierNode)
    : TreeifierNode :=
  {| key := key node; value := value node; parent := parent node;
     nodeType := nodeType node; ancestors := ancestors node;
     isCircular := isCircular node; circularRefNode := circularRefNode node;
     isLeaf := isLeaf node; isBranch := isBranch node;
     prefix := prefix node; joint := joint node; children := cs;
     path := path node; processResult := processResult node;
     toString := toString node |}.

(** Every non-empty result on a line of its own, each after one line
    feed; an empty result leaves nothing. *)
Definition children_block (results : list string) : string :=
  String.concat EmptyString
    (map (fun s => nl ++ s)
       (filter (fun s => negb (string_is_empty s)) results)).

Definition kind_name (node : TreeifierNode) : string :=
  ToString (nodeTypeToString (JsNumber (nodeType node))).

Definition types_line (st : Statics) (node : TreeifierNode) : string :=
  StructureColor st (prefix node ++ joint node) ++ KeyColor st (key node)
    ++ StructureColor st " : " ++ ValueColor st (kind_name node).

(** The line of the values view for the annotation text [circular]. *)
Definition values_line_with (st : Statics) (node : TreeifierNode)
    (circular : string) : string :=
  let shown := if isLeaf node then toString node else EmptyString in
  StructureColor st (prefix node ++ joint node) ++ KeyColor st (key node)
    ++ StructureColor st (if string_is_empty shown then EmptyString else " : ")
    ++ ValueColor st shown ++ CircularColor st circular.

(** The annotation the values view is described to show: the key of the
    node referred to, and a question mark when there is none. *)
Definition described_circular (node : TreeifierNode) : string :=
  if isCircular node
  then match circularRefNode node with
       | Some ref => " -> " ++ key ref
       | None => " -> ?"
       end
  else EmptyString.

Definition values_line (st : Statics) (node : TreeifierNode) : string :=
  values_line_with st node (values_circular node).

(** What the debug view adds for an entry it keeps. *)
Definition debug_line (st : Statics) (node : TreeifierNode)
    (shown circular : JsValue) : string :=
  StructureColor st (prefix node ++ joint node) ++ KeyColor st (key node)
    ++ ValueColor st
         (if isLeaf node || (key node =? "ancestors")%string
          then " " ++ ToString shown else EmptyString)
    ++ CircularColor st (" " ++ ToString circular).

(** The entries the debug view leaves out, by the node's key. *)
Definition suppressed_ancestors (node : TreeifierNode) : Prop :=
  key node = "ancestors" /\ circularRefNode node = None.
Definition suppressed_circularRefIndex (node : TreeifierNode) : Prop :=
  key node = "circularRefIndex" /\ less_than StringToNumber (value node) 0 = true.
Definition suppressed_circularRefNode (node : TreeifierNode) : Prop :=
  key node = "circularRefNode" /\ value node = JsNull.
Definition suppressed_isCircular (node : TreeifierNode) : Prop :=
  key node = "isCircular"
  /\ loosely_equals_true StringToNumber (value node) = false.
Definition suppressed_children (node : TreeifierNode) : Prop :=
  key node = "children"
  /\ exists len, get_length (value node) = Normal len
                 /\ less_than StringToNumber len 1 = true.

Definition suppressed (node : TreeifierNode) : Prop :=
  suppressed_ancestors node \/ suppressed_circularRefIndex node
  \/ suppressed_circularRefNode node \/ suppressed_isCircular node
  \/ suppressed_children node.

(** The markup of the HTML view, part by part. *)
Definition kind_class (node : TreeifierNode) : string :=
  "nt_" ++ kind_name node.

Definition is_arrayofobjects (t : Z) : bool :=
  (t =? arrayofobjects TreeifierNodeTypes)%Z.

Definition item_open (marker : string) (node : TreeifierNode) : string :=
  "<li id=" ++ dq ++ path node ++ dq ++ " class=" ++ dq ++ marker ++ " "
    ++ kind_class node ++ dq ++ ">".

Definition key_label (node : TreeifierNode) : string :=
  "<span class=" ++ dq ++ "key" ++ dq ++ ">" ++ key node ++ "</span>: ".

Definition circular_reference (node : TreeifierNode) : string :=
  if isCircular node
  then "<span class=" ++ dq ++ "circularlink" ++ dq ++ "><a href=" ++ dq
         ++ "#list@"
         ++ match circularRefNode node with
            | Some ref => path ref
            | None => EmptyString
            end
         ++ dq ++ ">"
         ++ match circularRefNode node with
            | Some ref => key ref
            | None => "?"
            end
         ++ "</a></span>"
  else EmptyString.

Definition value_span (node : TreeifierNode) : string :=
  if isLeaf node
  then "<span class=" ++ dq ++ "value"
         ++ (if isCircular node then " circular" else EmptyString)
         ++ dq ++ ">" ++ toString node ++ "</span> " ++ circular_reference node
  else EmptyString.

Definition list_tag (node : TreeifierNode) : string :=
  if is_arrayofobjects (nodeType node)
  then "ol start=" ++ dq ++ "0" ++ dq
  else "ul".

Definition list_open (node : TreeifierNode) : string :=
  "<" ++ list_tag node ++ " id=" ++ dq ++ "list@" ++ path node ++ dq
    ++ " class=" ++ dq ++ "branch " ++ kind_class node ++ dq ++ ">".

Definition list_close (node : TreeifierNode) : string :=
  if is_arrayofobjects (nodeType node) then "</ol>" else "</ul>".

(** The list of a branch around the text [inner] of its children; nothing
    for a leaf. *)
Definition html_list (node : TreeifierNode) (inner : string) : string :=
  if isBranch node
  then nl ++ list_open node ++ inner ++ nl ++ list_close node
  else EmptyString.

(** What [forEach] adds to an accumulator, whatever the results are. *)
Definition appended (node : TreeifierNode) : string :=
  forEach_child EmptyString (children node).

(** A processor that returns, for a branch with populated children, some
    line of the node followed by the block of the children's results and
    nothing more. *)
Definition line_then_children (processor : NodeProcessorFunction) : Prop :=
  forall (st : Statics) (node : TreeifierNode) (results : list string),
    isBranch node = true ->
    map processResult (children node) = map JsString results ->
    exists line : string,
      result_of (processor node st) = Normal (line ++ children_block results).

(** The marker that tells a leaf from a branch. *)
Definition item_marker (node : TreeifierNode) : string :=
  if isLeaf node then "leaf" else "branch".

(** What [forEach] appends for cached results of any kind: a result that
    [&&] takes for false leaves nothing, any other one is converted to
    text and put after one line feed. *)
Definition cached_block (results : list JsValue) : string :=
  String.concat EmptyString
    (map (fun v => if ToBoolean v then nl ++ ToString v else EmptyString)
       results).

(** A text that holds a line feed or a carriage return. *)
Fixpoint has_line_break (s : string) : bool :=
  match s with
  | EmptyString => false
  | String c rest =>
      Ascii.eqb c CR || Ascii.eqb c LF || has_line_break rest
  end.

(** Member names that are no decimal numerals, as the identifiers of an
    enum are. *)
Definition no_numeral (names : list string) : Prop :=
  forall (m : string) (n : Z), In m names -> m <> number_to_string n.

(** The values a property cannot be read from. *)
Definition is_nullish (v : JsValue) : Prop :=
  v = JsUndefined \/ v = JsNull.

(** The conversions the debug view makes on a node, all on values that
    [converts] accepts: the value under the keys whose test converts it
    ([nodeType] as a property key, [circularRefIndex] in [<],
    [isCircular] in [!=]), the [length] under the key [children], the
    annotation in [' ' + circular], the paths joined under the key
    [ancestors], and the cached results that [forEach] appends.  On such a
    node the debug view of the model is the one of the program. *)
Definition debug_converts (node : TreeifierNode) : Prop :=
  (key node = "nodeType" \/ key node = "circularRefIndex"
   \/ key node = "isCircular" -> converts (value node) = true)
  /\ (key node = "children" ->
      forall len : JsValue,
        get_length (value node) = Normal len -> converts len = true)
  /\ (forall circular : JsValue,
        debug_circular node = Normal circular -> converts circular = true)
  /\ (key node = "ancestors" ->
      forall paths : list JsValue,
        map_value_path (ancestors node) = Normal paths ->
        forallb converts paths = true)
  /\ (isBranch node = true -> key node <> "ancestors" ->
      forallb (fun c => converts (processResult c)) (children node) = true).

(** Statics whose four styles return the same text for every text. *)
Definition styles_agree (st st' : Statics) : Prop :=
  forall s : string,
    StructureColor st s = StructureColor st' s
    /\ KeyColor st s = KeyColor st' s
    /\ ValueColor st s = ValueColor st' s
    /\ CircularColor st s = CircularColor st' s.

(** Modelled from the spec: the traversal engine, which is not part of
    this repository.  [process] builds a tree whose root has the label as
    its key, no parent and no ancestor to refer back to; it runs the
    processor on every node, children before their parent, and stores the
    text the processor returns for a node as that node's [processResult],
    so that the root's children hold texts when the root is processed; it
    returns what the processor returns for the root, or throws when a call
    of the processor throws.  (Stated for a processor that leaves the
    statics alone, as every processor of the class does.) *)
Definition engine_contract (t : Treeifier) : Prop :=
  forall (item : TreeifierNode) (label : string)
         (processor : NodeProcessorFunction) (st : Statics),
    (forall (n : TreeifierNode) (s : Statics),
       statics_after (processor n s) = s) ->
    result_of (process t item label processor st) = TypeError
    \/ exists (root : TreeifierNode) (results : list string),
         key root = label /\ parent root = None /\ isCircular root = false
         /\ map processResult (children root) = map JsString results
         /\ process t item label processor st = processor root st.

(** A style that returns nothing for no text, as chalk does. *)
Definition empty_stays_empty (f : Style) : Prop :=
  f EmptyString = EmptyString.

End Class.

(** ** Instances for the examples *)

(** Chalk without colour support: every style returns its text. *)
Definition plain_chalk : Chalk :=
  {| blue := fun s => s; white := fun s => s;
     greenBright := fun s => s; redBright := fun s => s |}.

(** An enum object with the members the class and its documentation
    name. *)
Definition example_types : EnumObject :=
  {| member_names := ["string"; "arrayofobjects"; "nonEmptyObject"];
     arrayofobjects := 1 |}.

(** The examples hold no string that is converted to a number. *)
Definition no_numeric_text : string -> option Z := fun _ => None.

Definition example_root (cs : list TreeifierNode) : TreeifierNode :=
  {| key := "root"; value := JsObject []; parent := None; nodeType := 2;
     ancestors := []; isCircular := false; circularRefNode := None;
     isLeaf := false; isBranch := true; prefix := EmptyString;
     joint := EmptyString; children := cs; path := "root";
     processResult := JsUndefined; toString := EmptyString |}.

(** A leaf under [example_root] with the cached result [cached]. *)
Definition example_leaf (k shown : string) (cached : JsValue) : TreeifierNode :=
  {| key := k; value := JsString shown; parent := Some (example_root []);
     nodeType := 0; ancestors := []; isCircular := false;
     circularRefNode := None; isLeaf := true; isBranch := false;
     prefix := EmptyString; joint := "+- "; children := [];
     path := "root." ++ k; processResult := cached; toString := shown |}.

(** A circular leaf [self] under [example_root] that refers to [ref]. *)
Definition example_circular (ref : option TreeifierNode) : TreeifierNode :=
  {| key := "self"; value := JsObject []; parent := Some (example_root []);
     nodeType := 2; ancestors := []; isCircular := true;
     circularRefNode := ref; isLeaf := true; isBranch := false;
     prefix := EmptyString; joint := "+- "; children := [];
     path := "root.self"; processResult := JsUndefined;
     toString := EmptyString |}.

(** A branch [a] under [example_root]. *)
Definition example_branch (k : string) (cs : list TreeifierNode) : TreeifierNode :=
  {| key := k; value := JsObject []; parent := Some (example_root []);
     nodeType := 2; ancestors := []; isCircular := false;
     circularRefNode := None; isLeaf := false; isBranch := true;
     prefix := EmptyString; joint := "+- "; children := cs;
     path := "root." ++ k; processResult := JsUndefined;
     toString := EmptyString |}.

(** A node whose value is an object that holds [p] as its path. *)
Definition example_holder (k p : string) : TreeifierNode :=
  {| key := k; value := JsObject [("key", JsString k); ("path", JsString p)];
     parent := None; nodeType := 2; ancestors := []; isCircular := false;
     circularRefNode := None; isLeaf := false; isBranch := true;
     prefix := EmptyString; joint := EmptyString; children := [];
     path := p; processResult := JsUndefined; toString := EmptyString |}.

(** An [ancestors] entry of a debug tree that refers back to [ref]. *)
Definition example_ancestors (ref : TreeifierNode)
    (l cs : list TreeifierNode) : TreeifierNode :=
  {| key := "ancestors"; value := JsArray []; parent := Some (example_root []);
     nodeType := 1; ancestors := l; isCircular := true;
     circularRefNode := Some ref; isLeaf := false; isBranch := true;
     prefix := EmptyString; joint := "+- "; children := cs;
     path := "root.ancestors"; processResult := JsUndefined;
     toString := EmptyString |}.

(** Statics whose styles return no text at all. *)
Definition blank : Statics :=
  {| StructureColor := fun _ => EmptyString;
     KeyColor := fun _ => EmptyString;
     ValueColor := fun _ => EmptyString;
     CircularColor := fun _ => EmptyString |}.

(** An engine for the examples: the tree of an item is a root under the
    label with one entry, the item's key; the entry is processed first and
    its result cached, then the root. *)
Definition example_tree (label shown : string) (cached : JsValue)
    : TreeifierNode :=
  {| key := label; value := JsObject []; parent := None; nodeType := 2;
     ancestors := []; isCircular := false; circularRefNode := None;
     isLeaf := false; isBranch := true; prefix := EmptyString;
     joint := EmptyString;
     children := [example_leaf "key" shown cached];
     path := label; processResult := JsUndefined; toString := EmptyString |}.

Definition example_engine : Treeifier :=
  {| process := fun item label processor st =>
       match processor (example_leaf "key" (key item) JsUndefined) st with
       | (Normal out, st') =>
           processor (example_tree label (key item) (JsString out)) st'
       | (TypeError, st') => (TypeError, st')
       end;
     parse := fun item label processor =>
       ret (example_tree
              match label with Some l => l | None => "root" end
              (ToString item) JsUndefined) |}.

(** An entry of a debug tree: a leaf with key [k] and value [v]. *)
Definition example_entry (k : string) (v : JsValue) : TreeifierNode :=
  {| key := k; value := v; parent := Some (example_root []); nodeType := 0;
     ancestors := []; isCircular := false; circularRefNode := None;
     isLeaf := true; isBranch := false; prefix := EmptyString;
     joint := "+- "; children := []; path := "root." ++ k;
     processResult := JsUndefined; toString := ToString v |}.

(** ** Properties *)

Section Text.

Lemma append_nil_r (s : string) : s ++ EmptyString = s.
Proof. induction s as [|c s IH]; simpl; [reflexivity | now rewrite IH]. Qed.

Lemma append_assoc (a b c : string) : (a ++ b) ++ c = a ++ b ++ c.
Proof. induction a as [|x a IH]; simpl; [reflexivity | now rewrite IH]. Qed.

Lemma append_eq_nil (a b : string) :
  a ++ b = EmptyString -> a = EmptyString /\ b = EmptyString.
Proof. destruct a; simpl; [auto | discriminate]. Qed.

Lemma append_not_nil_r (a b : string) :
  b <> EmptyString -> a ++ b <> EmptyString.
Proof. intros Hb H. apply append_eq_nil in H. tauto. Qed.

Lemma append_not_nil_l (a b : string) :
  a <> EmptyString -> a ++ b <> EmptyString.
Proof. intros Ha H. apply append_eq_nil in H. tauto. Qed.

Lemma string_is_empty_true (s : string) :
  string_is_empty s = true <-> s = EmptyString.
Proof. destruct s; simpl; split; congruence. Qed.

Lemma ends_with_refl (s : string) : ends_with s s = true.
Proof. destruct s; unfold ends_with; now rewrite String.eqb_refl. Qed.

Lemma ends_with_step (suffix : string) (c : ascii) (s : string) :
  ends_with suffix (String c s)
  = if (String c s =? suffix)%string then true else ends_with suffix s.
Proof. reflexivity. Qed.

Lemma ends_with_append (a b : string) : ends_with b (a ++ b) = true.
Proof.
  induction a as [|c a IH].
  - apply ends_with_refl.
  - change (String c a ++ b) with (String c (a ++ b)).
    rewrite ends_with_step, IH.
    now destruct (String c (a ++ b) =? b)%string.
Qed.

Lemma prefix_append (a b : string) : String.prefix a (a ++ b) = true.
Proof.
  induction a as [|c a IH]; simpl.
  - now destruct b.
  - destruct (ascii_dec c c) as [_|Hc]; [exact IH | now elim Hc].
Qed.

Lemma concat_cons (x : string) (l : list string) :
  String.concat EmptyString (x :: l) = x ++ String.concat EmptyString l.
Proof.
  destruct l as [|y l]; [|reflexivity].
  unfold String.concat. now rewrite append_nil_r.
Qed.

End Text.

Section Aggregation.

Lemma ToBoolean_JsString (s : string) :
  ToBoolean (JsString s) = negb (string_is_empty s).
Proof. reflexivity. Qed.

(** [forEach] only ever appends to its accumulator. *)
Lemma forEach_child_acc (cs : list TreeifierNode) (acc : string) :
  forEach_child acc cs = acc ++ forEach_child EmptyString cs.
Proof.
  unfold forEach_child. revert acc.
  induction cs as [|c cs IH]; intros acc; simpl.
  - now rewrite append_nil_r.
  - rewrite IH. rewrite (IH (append_child EmptyString c)).
    unfold append_child. destruct (ToBoolean (processResult c)); simpl.
    + now rewrite !append_assoc.
    + reflexivity.
Qed.

Lemma children_block_cons (r : string) (results : list string) :
  children_block (r :: results)
  = (if string_is_empty r then EmptyString else nl ++ r)
      ++ children_block results.
Proof.
  unfold children_block. simpl filter.
  destruct (string_is_empty r); simpl negb; cbv iota; [reflexivity|].
  now rewrite map_cons, concat_cons.
Qed.

(** With populated children the appended text is the block of their
    non-empty results. *)
Lemma forEach_child_populated (cs : list TreeifierNode) :
  forall (results : list string) (acc : string),
    map processResult cs = map JsString results ->
    forEach_child acc cs = acc ++ children_block results.
Proof.
  unfold forEach_child.
  induction cs as [|c cs IH]; intros [|r results] acc H; simpl in H;
    try discriminate.
  - simpl. now rewrite append_nil_r.
  - injection H as Hc Hcs. simpl fold_left.
    rewrite (IH results _ Hcs), children_block_cons.
    unfold append_child. rewrite Hc, ToBoolean_JsString. simpl ToString.
    destruct (string_is_empty r); simpl negb; cbv iota.
    + reflexivity.
    + now rewrite !append_assoc.
Qed.

(** The children enter only through their cached results. *)
Lemma forEach_child_results (cs cs' : list TreeifierNode) (acc : string) :
  map processResult cs = map processResult cs' ->
  forEach_child acc cs = forEach_child acc cs'.
Proof.
  unfold forEach_child. revert cs' acc.
  induction cs as [|c cs IH]; intros [|c' cs'] acc H; simpl in H;
    try discriminate; [reflexivity|].
  injection H as Hc Hcs. simpl. unfold append_child at 2 4.
  rewrite Hc. now apply IH.
Qed.

Lemma appended_populated (node : TreeifierNode) (results : list string) :
  map processResult (children node) = map JsString results ->
  appended node = children_block results.
Proof.
  intros H. unfold appended. now rewrite (forEach_child_populated _ _ _ H).
Qed.

Lemma appended_children (node : TreeifierNode) (cs cs' : list TreeifierNode) :
  map processResult cs = map processResult cs' ->
  appended (with_children node cs) = appended (with_children node cs').
Proof. intros H. unfold appended. simpl. now apply forEach_child_results. Qed.

End Aggregation.

(** *** What each processor returns *)

Section Processors.

Variable chalk : Chalk.
Variable TreeifierNodeTypes : EnumObject.
Variable StringToNumber : string -> option Z.
Variable new_Treeifier : Treeifier.

Local Notation "'TypesView'" := (defaultColoredTypesProcessor TreeifierNodeTypes).
Local Notation "'ValuesView'" := defaultColoredValuesProcessor.
Local Notation "'HTMLView'" := (defaultHTMLProcessor TreeifierNodeTypes).
Local Notation "'DebugView'" := (debugProcessor TreeifierNodeTypes StringToNumber).
Local Notation "'Suppressed'" := (suppressed StringToNumber).

Ltac run_processor :=
  unfold defaultColoredTypesProcessor, defaultColoredValuesProcessor,
    defaultHTMLProcessor, bind, call, ret, lift.

Lemma defaultColoredTypesProcessor_run (node : TreeifierNode) (st : Statics) :
  TypesView node st
  = (Normal (types_line TreeifierNodeTypes st node
               ++ (if isBranch node then appended node else EmptyString)), st).
Proof.
  run_processor. unfold types_line, kind_name, appended.
  destruct (isBranch node).
  - rewrite forEach_child_acc. now rewrite !append_assoc.
  - now rewrite !append_assoc, append_nil_r.
Qed.

Lemma defaultColoredValuesProcessor_run (node : TreeifierNode) (st : Statics) :
  ValuesView node st
  = (Normal (values_line st node
               ++ (if isBranch node then appended node else EmptyString)), st).
Proof.
  run_processor. unfold values_line, values_line_with, appended.
  destruct (isBranch node).
  - rewrite forEach_child_acc. now rewrite !append_assoc.
  - now rewrite !append_assoc, append_nil_r.
Qed.

(** The code closes the list with the first two characters of its tag. *)
Lemma list_close_substr (node : TreeifierNode) :
  "</" ++ substr0 2 (list_tag TreeifierNodeTypes node) ++ ">"
  = list_close TreeifierNodeTypes node.
Proof.
  unfold list_tag, list_close.
  now destruct (is_arrayofobjects TreeifierNodeTypes (nodeType node)).
Qed.

(** The back-reference of a circular leaf, as the code assembles it. *)
Lemma circular_reference_code (node : TreeifierNode) :
  (if isCircular node
   then "<span class=" ++ dq ++ "circularlink" ++ dq ++ ">"
          ++ (if isCircular node
              then "<a href=" ++ dq ++ "#list@"
                     ++ ToString (nullish (optional_path (circularRefNode node))
                                    (JsString EmptyString))
                     ++ dq ++ ">"
                     ++ ToString (nullish (optional_key (circularRefNode node))
                                    (JsString "?"))
                     ++ "</a>"
              else ToString (nullish (optional_key (circularRefNode node))
                               (JsString "?")))
          ++ "</span>"
   else EmptyString)
  = circular_reference node.
Proof.
  unfold circular_reference.
  destruct (isCircular node); [|reflexivity].
  destruct (circularRefNode node) as [ref|]; simpl optional_path;
    simpl optional_key; simpl nullish; simpl ToString;
    now rewrite !append_assoc.
Qed.

Lemma defaultHTMLProcessor_run (node : TreeifierNode) (st : Statics) :
  HTMLView node st
  = (Normal
       match parent node with
       | Some p =>
           item_open TreeifierNodeTypes "leaf" node ++ nl
             ++ (if is_arrayofobjects TreeifierNodeTypes (nodeType p)
                 then EmptyString else key_label node)
             ++ value_span node
             ++ html_list TreeifierNodeTypes node (appended node)
             ++ nl ++ "</li>"
       | None => html_list TreeifierNodeTypes node (appended node)
       end, st).
Proof.
  run_processor. rewrite circular_reference_code.
  f_equal. f_equal.
  fold (kind_name TreeifierNodeTypes node).
  fold (kind_class TreeifierNodeTypes node).
  fold (key_label node). fold (value_span node).
  fold (is_arrayofobjects TreeifierNodeTypes (nodeType node)).
  fold (list_tag TreeifierNodeTypes node).
  unfold html_list, appended.
  destruct (parent node) as [p|].
  - fold (is_arrayofobjects TreeifierNodeTypes (nodeType p)).
    destruct (isBranch node).
    + rewrite forEach_child_acc.
      rewrite <- (list_close_substr node).
      unfold item_open, list_open. now rewrite !append_assoc.
    + unfold item_open. now rewrite !append_assoc.
  - destruct (isBranch node); [|reflexivity].
    rewrite forEach_child_acc.
    rewrite <- (list_close_substr node).
    unfold list_open. now rewrite !append_assoc.
Qed.

Ltac eval_keys :=
  cbn [String.eqb Ascii.eqb Bool.eqb andb orb negb is_null is_none].

Ltac unfold_suppressed :=
  unfold suppressed, suppressed_ancestors, suppressed_circularRefIndex,
    suppressed_circularRefNode, suppressed_isCircular, suppressed_children.

Ltac refute_suppressed :=
  unfold_suppressed;
  intros [[? ?]|[[? ?]|[[? ?]|[[? ?]|[? [? [? ?]]]]]]]; congruence.

(** The line of a kept entry, followed by what the children added. *)
Ltac kept_entry node circular :=
  right; right; eexists; exists circular;
  split; [reflexivity|]; split; [refute_suppressed|];
  rewrite ?orb_false_r, ?andb_true_r;
  destruct (isBranch node);
  [ rewrite forEach_child_acc; now rewrite ?append_assoc
  | now rewrite ?append_assoc, ?append_nil_r ].

(** The debug view on a node: it throws, or leaves the entry out, or
    returns the entry's line and, for a branch other than [ancestors], what
    the children added. *)
Lemma debugProcessor_cases (node : TreeifierNode) (st : Statics) :
  (DebugView node st = (TypeError, st)
   /\ ~ (debug_circular node <> TypeError /\ Suppressed node)
   /\ (debug_circular node = TypeError
       \/ key node = "ancestors" \/ key node = "children"))
  \/ (DebugView node st = (Normal EmptyString, st)
      /\ debug_circular node <> TypeError /\ Suppressed node)
  \/ (exists shown circular : JsValue,
         debug_circular node = Normal circular
         /\ ~ Suppressed node
         /\ DebugView node st
            = (Normal (debug_line st node shown circular
                         ++ (if isBranch node
                                && negb (key node =? "ancestors")%string
                             then appended node else EmptyString)), st)).
Proof.
  unfold debugProcessor, debug_line, appended, bind, lift, call, ret.
  destruct (debug_circular node) as [circular|] eqn:Hcircular;
    [| left; split;
       [reflexivity | split; [intros [H _]; now apply H | now left]]].
  assert (Hok : Normal circular <> @TypeError JsValue) by discriminate.
  destruct (string_dec (key node) "ancestors") as [Hk|Hk1].
  { rewrite Hk. eval_keys.
    destruct (circularRefNode node) as [ref|] eqn:Href; eval_keys.
    - destruct (map_value_path (ancestors node)) as [paths|] eqn:Hpaths.
      + right; right. eexists; exists circular.
        split; [reflexivity|]. split; [refute_suppressed|].
        rewrite orb_true_r, andb_false_r, append_nil_r.
        now rewrite ?append_assoc.
      + left. split; [reflexivity|].
        split; [intros [_ H]; revert H; refute_suppressed | now right; left].
    - right; left. split; [reflexivity|]. split; [exact Hok|].
      left. now split. }
  rewrite (proj2 (String.eqb_neq _ _) Hk1).
  destruct (string_dec (key node) "circularRefIndex") as [Hk|Hk2].
  { rewrite Hk. eval_keys.
    destruct (less_than StringToNumber (value node) 0) eqn:Hlt.
    - right; left. split; [reflexivity|]. split; [exact Hok|].
      right; left. now split.
    - kept_entry node circular. }
  rewrite (proj2 (String.eqb_neq _ _) Hk2).
  destruct (string_dec (key node) "circularRefNode") as [Hk|Hk3].
  { rewrite Hk. eval_keys.
    destruct (value node) eqn:Hvalue; eval_keys;
      try (right; left; split; [reflexivity|]; split; [exact Hok|];
           right; right; left; now split);
      kept_entry node circular. }
  rewrite (proj2 (String.eqb_neq _ _) Hk3).
  destruct (string_dec (key node) "isCircular") as [Hk|Hk4].
  { rewrite Hk. eval_keys.
    destruct (loosely_equals_true StringToNumber (value node)) eqn:Hloose;
      eval_keys.
    - kept_entry node circular.
    - right; left. split; [reflexivity|]. split; [exact Hok|].
      right; right; right; left. now split. }
  rewrite (proj2 (String.eqb_neq _ _) Hk4).
  destruct (string_dec (key node) "children") as [Hk|Hk5].
  { rewrite Hk. eval_keys.
    destruct (get_length (value node)) as [len|] eqn:Hlen.
    - destruct (less_than StringToNumber len 1) eqn:Hlt.
      + right; left. split; [reflexivity|]. split; [exact Hok|].
        right; right; right; right. split; [exact Hk|].
        exists len. now split.
      + kept_entry node circular.
    - left. split; [reflexivity|].
      split; [intros [_ H]; revert H; refute_suppressed | now right; right]. }
  rewrite (proj2 (String.eqb_neq _ _) Hk5).
  eval_keys. kept_entry node circular.
Qed.

Lemma debugProcessor_frame (node : TreeifierNode) (st : Statics) :
  statics_after (DebugView node st) = st.
Proof.
  destruct (debugProcessor_cases node st)
    as [[H _]|[[H _]|(shown & circular & _ & _ & H)]];
    now rewrite H.
Qed.

(** Splitting on every test a processor makes. *)
Ltac split_tests :=
  repeat match goal with
         | |- context [match ?c with Normal _ => _ | TypeError => _ end] =>
             destruct c
         | |- context [if ?c then _ else _] => destruct c
         end.

Lemma debugProcessor_children (node : TreeifierNode)
    (cs cs' : list TreeifierNode) (st : Statics) :
  map processResult cs = map processResult cs' ->
  DebugView (with_children node cs) st = DebugView (with_children node cs') st.
Proof.
  intros H. unfold debugProcessor, debug_circular, bind, lift, call, ret.
  cbn [with_children key value ancestors isCircular circularRefNode isLeaf
       isBranch prefix joint children toString].
  split_tests; try reflexivity;
    now rewrite (forEach_child_results cs cs' _ H).
Qed.

(** The annotation of the values view when the node referred to is there. *)
Lemma values_circular_reference (node ref : TreeifierNode) :
  isCircular node = true -> circularRefNode node = Some ref ->
  values_circular node = " -> " ++ key ref
  /\ values_circular node = described_circular node.
Proof.
  intros Hc Href. unfold values_circular, described_circular.
  now rewrite Hc, Href.
Qed.

(** The tests of the debug view on the values the description names. *)
Lemma less_than_number (n k : Z) :
  less_than StringToNumber (JsNumber n) k = (n <? k)%Z.
Proof. reflexivity. Qed.

Lemma loosely_equals_true_boolean (b : bool) :
  loosely_equals_true StringToNumber (JsBoolean b) = b.
Proof. reflexivity. Qed.

Lemma loosely_equals_true_number (n : Z) :
  loosely_equals_true StringToNumber (JsNumber n) = (n =? 1)%Z.
Proof. reflexivity. Qed.

Lemma empty_array_has_no_length :
  get_length (JsArray []) = Normal (JsNumber 0)
  /\ less_than StringToNumber (JsNumber 0) 1 = true.
Proof. now split. Qed.

(** *** The colour registry *)

(** C7: [resetAllColors] completes normally and leaves each of the four
    statics at its default, whatever they were before; run a second time it
    leaves the statics of the first run. *)
Theorem resetAllColors_restores_defaults (st : Statics) :
  let once := resetAllColors chalk st in
  result_of once = Normal tt
  /\ StructureColor (statics_after once) = blue chalk
  /\ KeyColor (statics_after once) = white chalk
  /\ ValueColor (statics_after once) = greenBright chalk
  /\ CircularColor (statics_after once) = redBright chalk
  /\ statics_after once = initial chalk
  /\ statics_after (resetAllColors chalk (statics_after once))
     = statics_after once.
Proof. cbv zeta. repeat split. Qed.

(** C10: none of the four processors assigns a static: the statics after a
    call, on any node, are the statics before it. *)
Theorem processors_leave_statics (node : TreeifierNode) (st : Statics) :
  statics_after (TypesView node st) = st
  /\ statics_after (ValuesView node st) = st
  /\ statics_after (HTMLView node st) = st
  /\ statics_after (DebugView node st) = st.
Proof.
  rewrite defaultColoredTypesProcessor_run, defaultColoredValuesProcessor_run,
    defaultHTMLProcessor_run, debugProcessor_frame.
  repeat split.
Qed.

(** The debug view under statics whose styles agree. *)
Lemma debugProcessor_styles (node : TreeifierNode) (st st' : Statics) :
  styles_agree st st' ->
  result_of (DebugView node st) = result_of (DebugView node st').
Proof.
  intros Hagree.
  pose proof (fun s => proj1 (Hagree s)) as Hs.
  pose proof (fun s => proj1 (proj2 (Hagree s))) as Hk.
  pose proof (fun s => proj1 (proj2 (proj2 (Hagree s)))) as Hv.
  pose proof (fun s => proj2 (proj2 (proj2 (Hagree s)))) as Hc.
  unfold debugProcessor, bind, lift, call, ret, result_of.
  split_tests; cbn [fst]; rewrite ?Hs, ?Hk, ?Hv, ?Hc; reflexivity.
Qed.

(** C6: a processor completes in the same way (the same text, or the same
    throw) on two invocations whenever the four styles return the same
    texts in both and the nodes are the same but for their children, which
    hold the same cached results in the same order; in particular on a
    second invocation on the same node right after the first. *)
Theorem rendering_is_deterministic (node : TreeifierNode)
    (cs cs' : list TreeifierNode) (st st' : Statics) :
  styles_agree st st' ->
  map processResult cs = map processResult cs' ->
  (result_of (TypesView (with_children node cs) st)
   = result_of (TypesView (with_children node cs') st')
   /\ result_of (ValuesView (with_children node cs) st)
      = result_of (ValuesView (with_children node cs') st')
   /\ result_of (HTMLView (with_children node cs) st)
      = result_of (HTMLView (with_children node cs') st')
   /\ result_of (DebugView (with_children node cs) st)
      = result_of (DebugView (with_children node cs') st'))
  /\ (result_of (TypesView node (statics_after (TypesView node st)))
      = result_of (TypesView node st)
      /\ result_of (ValuesView node (statics_after (ValuesView node st)))
         = result_of (ValuesView node st)
      /\ result_of (HTMLView node (statics_after (HTMLView node st)))
         = result_of (HTMLView node st)
      /\ result_of (DebugView node (statics_after (DebugView node st)))
         = result_of (DebugView node st)).
Proof.
  intros Hagree Hresults.
  pose proof (fun s => proj1 (Hagree s)) as Hs.
  pose proof (fun s => proj1 (proj2 (Hagree s))) as Hk.
  pose proof (fun s => proj1 (proj2 (proj2 (Hagree s)))) as Hv.
  pose proof (fun s => proj2 (proj2 (proj2 (Hagree s)))) as Hc.
  pose proof (appended_children node cs cs' Hresults) as Ha.
  split.
  - rewrite !defaultColoredTypesProcessor_run,
      !defaultColoredValuesProcessor_run, !defaultHTMLProcessor_run.
    unfold result_of, fst, types_line, values_line, values_line_with,
      html_list.
    rewrite Ha, ?Hs, ?Hk, ?Hv, ?Hc.
    repeat split.
    rewrite (debugProcessor_children node cs cs' st Hresults).
    now apply debugProcessor_styles.
  - rewrite debugProcessor_frame.
    rewrite !defaultColoredTypesProcessor_run,
      !defaultColoredValuesProcessor_run, !defaultHTMLProcessor_run.
    repeat split.
Qed.

(** *** The debugging entry point *)

(** The debug view on a root under a label that starts with [debug@]: no
    key that the debug view treats apart starts so, and a root refers to
    no node, hence the root's line, with an empty annotation, and then what
    its children added. *)
Lemma debugProcessor_labelled_root (root : TreeifierNode) (k : string)
    (st : Statics) :
  key root = "debug@" ++ k ->
  isCircular root = false ->
  DebugView root st
  = (Normal (StructureColor st (prefix root ++ joint root)
               ++ KeyColor st ("debug@" ++ k)
               ++ ValueColor st
                    (if isLeaf root then " " ++ toString root
                     else EmptyString)
               ++ CircularColor st " "
               ++ (if isBranch root then appended root else EmptyString)),
     st).
Proof.
  intros Hkey Hcircular.
  unfold debugProcessor, debug_circular, appended, bind, lift, call, ret.
  rewrite Hcircular, Hkey.
  cbn [append String.eqb Ascii.eqb Bool.eqb andb orb negb ToString].
  rewrite ?orb_false_r, ?andb_true_r.
  destruct (isBranch root).
  - rewrite forEach_child_acc. now rewrite ?append_assoc.
  - now rewrite ?append_assoc, ?append_nil_r.
Qed.

(** [process] of an engine that keeps the contract, on the debug view
    under such a label. *)
Lemma process_debug_labelled (t : Treeifier) (rootnode : TreeifierNode)
    (st : Statics) :
  engine_contract t ->
  result_of (process t rootnode ("debug@" ++ key rootnode) DebugView st)
  = TypeError
  \/ exists (root : TreeifierNode) (results : list string),
       key root = "debug@" ++ key rootnode /\ parent root = None
       /\ map processResult (children root) = map JsString results
       /\ process t rootnode ("debug@" ++ key rootnode) DebugView st
          = (Normal (StructureColor st (prefix root ++ joint root)
                       ++ KeyColor st ("debug@" ++ key rootnode)
                       ++ ValueColor st
                            (if isLeaf root then " " ++ toString root
                             else EmptyString)
                       ++ CircularColor st " "
                       ++ (if isBranch root then children_block results
                           else EmptyString)),
             st).
Proof.
  intros Hcontract.
  destruct (Hcontract rootnode ("debug@" ++ key rootnode) DebugView st
              debugProcessor_frame)
    as [Hthrow|(root & results & Hkey & Hparent & Hcircular & Hresults & Hrun)];
    [now left|].
  right. exists root, results.
  split; [exact Hkey|]. split; [exact Hparent|]. split; [exact Hresults|].
  rewrite Hrun, (debugProcessor_labelled_root root _ st Hkey Hcircular).
  now rewrite (appended_populated root results Hresults).
Qed.


(** *** The types view *)

(** C9: when the structure style keeps text, the types view returns a
    non-empty text on every node; it starts with the styled connector, key,
    separator and kind name; and a parent's [forEach] appends it, after one
    line feed, for a child that holds it as its cached result. *)
Theorem types_view_never_empty (node : TreeifierNode) (st : Statics) :
  keeps_text (StructureColor st) ->
  exists out rest : string,
    TypesView node st = (Normal out, st)
    /\ out = StructureColor st (prefix node ++ joint node)
               ++ KeyColor st (key node) ++ StructureColor st " : "
               ++ ValueColor st (kind_name TreeifierNodeTypes node) ++ rest
    /\ out <> EmptyString
    /\ forall (child : TreeifierNode) (acc : string),
         processResult child = JsString out ->
         append_child acc child = acc ++ nl ++ out.
Proof.
  intros Hkeeps.
  exists (types_line TreeifierNodeTypes st node
            ++ (if isBranch node then appended node else EmptyString)).
  exists (if isBranch node then appended node else EmptyString).
  assert (Hne : types_line TreeifierNodeTypes st node
                  ++ (if isBranch node then appended node else EmptyString)
                <> EmptyString).
  { apply append_not_nil_l. unfold types_line.
    do 2 apply append_not_nil_r. apply append_not_nil_l.
    apply Hkeeps. discriminate. }
  split; [apply defaultColoredTypesProcessor_run|].
  split; [unfold types_line; now rewrite !append_assoc|].
  split; [exact Hne|].
  intros child acc Hchild. unfold append_child. rewrite Hchild.
  rewrite ToBoolean_JsString.
  destruct (string_is_empty _) eqn:Hempty; [|reflexivity].
  apply string_is_empty_true in Hempty. contradiction.
Qed.

(** *** The values view *)

(** C1: on a circular node that refers to no node, the values view returns
    the node's line with the annotation [ -> undefined], not the
    placeholder [ -> ?] of the description: the sum is taken before the
    [??], so the fallback is never used. *)
Theorem values_view_missing_reference (node : TreeifierNode) (st : Statics) :
  isCircular node = true ->
  circularRefNode node = None ->
  result_of (ValuesView node st)
  = Normal (values_line_with st node " -> undefined"
              ++ (if isBranch node then appended node else EmptyString))
  /\ values_circular node <> described_circular node.
Proof.
  intros Hc Href. rewrite defaultColoredValuesProcessor_run.
  unfold values_line, values_circular, described_circular.
  rewrite Hc, Href. split; [reflexivity | discriminate].
Qed.

(** *** Aggregation of the children *)

(** C2: for a branch whose children hold text as cached results, the types
    and the values view return the node's line and then every non-empty
    result in child order, each after one line feed; the HTML view puts
    that block between the opening and the closing tag of the node's list;
    the debug view throws, or leaves the node out, or returns the node's
    line and then that block, except under the key [ancestors], where it
    returns the line alone.  Each view reads the children through their
    cached results only. *)
Theorem branch_aggregation (node : TreeifierNode) (st : Statics)
    (results : list string) :
  isBranch node = true ->
  map processResult (children node) = map JsString results ->
  result_of (TypesView node st)
  = Normal (types_line TreeifierNodeTypes st node ++ children_block results)
  /\ result_of (ValuesView node st)
     = Normal (values_line st node ++ children_block results)
  /\ result_of (HTMLView node st)
     = Normal
         (match parent node with
          | Some p =>
              item_open TreeifierNodeTypes "leaf" node ++ nl
                ++ (if is_arrayofobjects TreeifierNodeTypes (nodeType p)
                    then EmptyString else key_label node)
                ++ value_span node
          | None => EmptyString
          end
          ++ nl ++ list_open TreeifierNodeTypes node
          ++ children_block results
          ++ nl ++ list_close TreeifierNodeTypes node
          ++ match parent node with
             | Some _ => nl ++ "</li>"
             | None => EmptyString
             end)
  /\ (result_of (DebugView node st) = TypeError
      \/ (result_of (DebugView node st) = Normal EmptyString
          /\ Suppressed node)
      \/ exists shown circular : JsValue,
           result_of (DebugView node st)
           = Normal (debug_line st node shown circular
                       ++ (if (key node =? "ancestors")%string
                           then EmptyString
                           else children_block results)))
  /\ forall cs cs' : list TreeifierNode,
       map processResult cs = map processResult cs' ->
       TypesView (with_children node cs) st
       = TypesView (with_children node cs') st
       /\ ValuesView (with_children node cs) st
          = ValuesView (with_children node cs') st
       /\ HTMLView (with_children node cs) st
          = HTMLView (with_children node cs') st
       /\ DebugView (with_children node cs) st
          = DebugView (with_children node cs') st.
Proof.
  intros Hbranch Hresults.
  pose proof (appended_populated node results Hresults) as Happended.
  split; [|split; [|split; [|split]]].
  - rewrite defaultColoredTypesProcessor_run, Hbranch, Happended. reflexivity.
  - rewrite defaultColoredValuesProcessor_run, Hbranch, Happended. reflexivity.
  - rewrite defaultHTMLProcessor_run. unfold html_list.
    rewrite Hbranch, Happended.
    destruct (parent node) as [p|]; unfold result_of, fst;
      now rewrite ?append_assoc, ?append_nil_r.
  - destruct (debugProcessor_cases node st)
      as [[H _]|[[H [_ Hs]]|(shown & circular & _ & _ & H)]]; rewrite H.
    + now left.
    + right; left. now split.
    + right; right. exists shown, circular.
      rewrite Hbranch, Happended. unfold result_of, fst.
      now destruct (key node =? "ancestors")%string.
  - intros cs cs' H.
    pose proof (appended_children node cs cs' H) as Ha.
    rewrite !defaultColoredTypesProcessor_run,
      !defaultColoredValuesProcessor_run, !defaultHTMLProcessor_run.
    unfold html_list. rewrite Ha.
    repeat split. now apply debugProcessor_children.
Qed.

(** *** The debug view *)

(** C3: when the circular style keeps text and the values that the debug
    view converts on the node convert (see [debug_converts]; outside them
    the program throws where the model does not), the debug view returns the
    empty text exactly when its annotation is read without a throw and the
    node is one of: key [ancestors] with no node referred to; key
    [circularRefIndex] with a value below 0; key [circularRefNode] with the
    value [null]; key [isCircular] with a value that [==] does not equate
    with [true]; key [children] with a value whose [length] is below 1.
    Under the key [circularRefIndex] the value 2 is not left out. *)
Theorem debug_view_suppression (node : TreeifierNode) (st : Statics) :
  keeps_text (CircularColor st) ->
  debug_converts node ->
  (result_of (DebugView node st) = Normal EmptyString
   <-> debug_circular node <> TypeError /\ Suppressed node)
  /\ (key node = "circularRefIndex" -> value node = JsNumber 2 ->
      result_of (DebugView node st) <> Normal EmptyString
      /\ (debug_circular node <> TypeError ->
          exists out : string,
            result_of (DebugView node st) = Normal out /\ out <> EmptyString)).
Proof.
  intros Hkeeps _.
  assert (Hline : forall shown circular tail,
             debug_line st node shown circular ++ tail <> EmptyString).
  { intros shown circular tail. apply append_not_nil_l. unfold debug_line.
    do 3 apply append_not_nil_r. apply Hkeeps. discriminate. }
  assert (Hiff : result_of (DebugView node st) = Normal EmptyString
                 <-> debug_circular node <> TypeError /\ Suppressed node).
  { destruct (debugProcessor_cases node st)
      as [[H [Hn _]]|[[H [Hok Hs]]|(shown & circular & Hc & Hn & H)]];
      rewrite H; unfold result_of, fst.
    - split; [discriminate | intros Hs; contradiction].
    - split; [now intros _ | reflexivity].
    - split.
      + intros Hempty. injection Hempty as Hempty.
        now apply Hline in Hempty.
      + intros [_ Hs]. contradiction. }
  split; [exact Hiff|].
  intros Hkey Hvalue.
  assert (Hnot : ~ Suppressed node).
  { unfold_suppressed. rewrite Hkey, Hvalue.
    intros [[? ?]|[[? ?]|[[? ?]|[[? ?]|[? [? [? ?]]]]]]]; discriminate. }
  split.
  - intros Hempty. apply Hiff in Hempty. now destruct Hempty.
  - intros Hok.
    destruct (debugProcessor_cases node st)
      as [[H [_ [Hc|[Hk|Hk]]]]|[[H [_ Hs]]|(shown & circular & Hc & _ & H)]].
    + contradiction.
    + congruence.
    + congruence.
    + contradiction.
    + rewrite H. eexists. split; [reflexivity | apply Hline].
Qed.

(** *** The HTML view *)

(** C4: a node that has a parent is returned as a list item whose [id] is
    the node's path and whose [class] is [leaf] followed by [nt_] and the
    kind name, for a leaf and for a branch alike; a branch carries the
    marker [branch], with the same kind class, on the list inside the
    item. *)
Theorem html_item_id_and_class (node p : TreeifierNode) (st : Statics) :
  parent node = Some p ->
  exists body : string,
    result_of (HTMLView node st)
    = Normal ("<li id=" ++ dq ++ path node ++ dq ++ " class=" ++ dq ++ "leaf "
                ++ "nt_" ++ kind_name TreeifierNodeTypes node ++ dq ++ ">"
                ++ nl ++ body ++ nl ++ "</li>")
    /\ (isBranch node = false ->
        body = (if is_arrayofobjects TreeifierNodeTypes (nodeType p)
                then EmptyString else key_label node) ++ value_span node)
    /\ (isBranch node = true ->
        exists before inner : string,
          body = before ++ nl ++ "<" ++ list_tag TreeifierNodeTypes node
                   ++ " id=" ++ dq ++ "list@" ++ path node ++ dq
                   ++ " class=" ++ dq ++ "branch " ++ "nt_"
                   ++ kind_name TreeifierNodeTypes node ++ dq ++ ">" ++ inner).
Proof.
  intros Hparent. rewrite defaultHTMLProcessor_run, Hparent.
  exists ((if is_arrayofobjects TreeifierNodeTypes (nodeType p)
           then EmptyString else key_label node)
          ++ value_span node
          ++ html_list TreeifierNodeTypes node (appended node)).
  split; [|split].
  - unfold result_of, fst, item_open, kind_class.
    now rewrite !append_assoc.
  - intros Hleaf. unfold html_list. rewrite Hleaf.
    now rewrite append_nil_r.
  - intros Hbranch. unfold html_list, list_open, kind_class. rewrite Hbranch.
    exists ((if is_arrayofobjects TreeifierNodeTypes (nodeType p)
             then EmptyString else key_label node) ++ value_span node).
    exists (appended node ++ nl ++ list_close TreeifierNodeTypes node).
    now rewrite !append_assoc.
Qed.

(** C5: in the item of a node that has a parent the key label is left out
    when the parent's kind is [arrayofobjects] and is there otherwise; the
    root has no item, hence no key label.  The list of a branch opens with
    [ol start="0"] when the node's own kind is [arrayofobjects] and with
    [ul] otherwise, has the id [list@] followed by the node's path, and
    closes with [</ol>] and [</ul>] respectively; a leaf has no list. *)
Theorem html_key_label_and_list (node : TreeifierNode) (st : Statics) :
  (forall p : TreeifierNode,
     parent node = Some p ->
     result_of (HTMLView node st)
     = Normal (item_open TreeifierNodeTypes "leaf" node ++ nl
                 ++ (if (nodeType p =? arrayofobjects TreeifierNodeTypes)%Z
                     then EmptyString
                     else "<span class=" ++ dq ++ "key" ++ dq ++ ">"
                            ++ key node ++ "</span>: ")
                 ++ value_span node
                 ++ html_list TreeifierNodeTypes node (appended node)
                 ++ nl ++ "</li>"))
  /\ (parent node = None ->
      result_of (HTMLView node st)
      = Normal (html_list TreeifierNodeTypes node (appended node)))
  /\ (isBranch node = true ->
      forall inner : string,
        html_list TreeifierNodeTypes node inner
        = nl ++ "<"
            ++ (if (nodeType node =? arrayofobjects TreeifierNodeTypes)%Z
                then "ol start=" ++ dq ++ "0" ++ dq else "ul")
            ++ " id=" ++ dq ++ "list@" ++ path node ++ dq
            ++ " class=" ++ dq ++ "branch " ++ kind_class TreeifierNodeTypes node
            ++ dq ++ ">" ++ inner ++ nl
            ++ (if (nodeType node =? arrayofobjects TreeifierNodeTypes)%Z
                then "</ol>" else "</ul>"))
  /\ (isBranch node = false ->
      forall inner : string,
        html_list TreeifierNodeTypes node inner = EmptyString).
Proof.
  rewrite defaultHTMLProcessor_run.
  split; [|split; [|split]].
  - intros p Hparent. now rewrite Hparent.
  - intros Hparent. now rewrite Hparent.
  - intros Hbranch inner.
    unfold html_list, list_open, list_tag, list_close, is_arrayofobjects.
    rewrite Hbranch. now rewrite !append_assoc.
  - intros Hleaf inner. unfold html_list. now rewrite Hleaf.
Qed.

End Processors.

(** ** The properties on the examples *)

Lemma plain_keeps_text : keeps_text (fun s : string => s).
Proof. intros s Hs. exact Hs. Defined.

(** An entry of the examples converts when its value and the length of
    its value do. *)
Lemma example_entry_converts (k : string) (v : JsValue) :
  converts v = true ->
  (forall len : JsValue, get_length v = Normal len -> converts len = true) ->
  debug_converts (example_entry k v).
Proof.
  intros Hv Hlen. unfold debug_converts. simpl.
  split; [intros _; exact Hv|].
  split; [intros _; exact Hlen|].
  split; [intros circular H; injection H as <-; reflexivity|].
  split; [intros _ paths H; injection H as <-; reflexivity|].
  intros H. discriminate H.
Defined.

Lemma example_number_converts (k : string) (n : Z) :
  (Z.abs n <=? max_safe_integer)%Z = true ->
  debug_converts (example_entry k (JsNumber n)).
Proof.
  intros Hn. apply example_entry_converts; [exact Hn|].
  intros len H. injection H as <-. reflexivity.
Defined.

(** A circular leaf that refers to no node: the values view shows
    [undefined], and the line does not end with the placeholder. *)
Lemma values_view_missing_reference_witness :
  result_of (defaultColoredValuesProcessor (example_circular None)
               (initial plain_chalk))
  = Normal "+- self -> undefined"
  /\ ends_with "-> ?" "+- self -> undefined" = false.
Proof.
  split; [|reflexivity].
  exact (proj1 (values_view_missing_reference (example_circular None)
                  (initial plain_chalk) eq_refl eq_refl)).
Defined.

(** A root with the cached results A, nothing and C: two lines follow the
    root's line. *)
Lemma branch_aggregation_witness :
  result_of
    (defaultColoredTypesProcessor example_types
       (example_root [example_leaf "a" "1" (JsString "A");
                      example_leaf "b" "2" (JsString EmptyString);
                      example_leaf "c" "3" (JsString "C")])
       (initial plain_chalk))
  = Normal ("root : nonEmptyObject" ++ nl ++ "A" ++ nl ++ "C").
Proof.
  exact (proj1 (branch_aggregation example_types no_numeric_text
                  (example_root [example_leaf "a" "1" (JsString "A");
                                 example_leaf "b" "2" (JsString EmptyString);
                                 example_leaf "c" "3" (JsString "C")])
                  (initial plain_chalk) ["A"; EmptyString; "C"]
                  eq_refl eq_refl)).
Defined.

(** The HTML view ends with closing tags, and the debug view returns
    nothing for an [ancestors] branch that refers to no node: neither is a
    line followed by the children's block. *)
Lemma line_then_children_fails :
  ~ line_then_children (defaultHTMLProcessor example_types)
  /\ ~ line_then_children (debugProcessor example_types no_numeric_text).
Proof.
  split; intros H.
  - destruct (H (initial plain_chalk)
                (example_root [example_leaf "a" "1" (JsString "A")])
                ["A"] eq_refl eq_refl) as [line Hline].
    apply (f_equal (fun c => match c with
                             | Normal out => ends_with (children_block ["A"]) out
                             | TypeError => false
                             end)) in Hline.
    cbv beta iota in Hline. rewrite ends_with_append in Hline.
    vm_compute in Hline. discriminate.
  - destruct (H (initial plain_chalk)
                (example_branch "ancestors"
                   [example_leaf "0" "x" (JsString "A")])
                ["A"] eq_refl eq_refl) as [line Hline].
    apply (f_equal (fun c => match c with
                             | Normal out => ends_with (children_block ["A"]) out
                             | TypeError => false
                             end)) in Hline.
    cbv beta iota in Hline. rewrite ends_with_append in Hline.
    vm_compute in Hline. discriminate.
Qed.

(** Under the key [circularRefIndex] the value -1 is left out and the
    value 2 is shown. *)
Lemma debug_view_suppression_witness :
  result_of (debugProcessor example_types no_numeric_text
               (example_entry "circularRefIndex" (JsNumber (-1)))
               (initial plain_chalk))
  = Normal EmptyString
  /\ result_of (debugProcessor example_types no_numeric_text
                  (example_entry "circularRefIndex" (JsNumber 2))
                  (initial plain_chalk))
     <> Normal EmptyString.
Proof.
  split.
  - apply (proj1 (debug_view_suppression example_types no_numeric_text
                    (example_entry "circularRefIndex" (JsNumber (-1)))
                    (initial plain_chalk) plain_keeps_text
                    (example_number_converts "circularRefIndex" (-1)
                       eq_refl))).
    split; [discriminate|].
    right; left. split; reflexivity.
  - exact (proj1 (proj2 (debug_view_suppression example_types no_numeric_text
                           (example_entry "circularRefIndex" (JsNumber 2))
                           (initial plain_chalk) plain_keeps_text
                           (example_number_converts "circularRefIndex" 2
                              eq_refl))
                    eq_refl eq_refl)).
Defined.

(** Under the key [isCircular] the number 1, which is not [true], is
    shown. *)
Lemma debug_isCircular_one_is_shown :
  result_of (debugProcessor example_types no_numeric_text
               (example_entry "isCircular" (JsNumber 1))
               (initial plain_chalk))
  = Normal "+- isCircular 1 "
  /\ ~ (forall (node : TreeifierNode) (st : Statics),
          key node = "isCircular" -> value node <> JsBoolean true ->
          result_of (debugProcessor example_types no_numeric_text node st)
          = Normal EmptyString).
Proof.
  split; [reflexivity|].
  intros H.
  specialize (H (example_entry "isCircular" (JsNumber 1))
                (initial plain_chalk) eq_refl).
  assert (Hvalue : value (example_entry "isCircular" (JsNumber 1))
                   <> JsBoolean true) by discriminate.
  apply H in Hvalue. vm_compute in Hvalue. discriminate.
Qed.

(** A branch under the root: its item has the path as id and the class
    [leaf nt_nonEmptyObject]. *)
Lemma html_item_id_and_class_witness :
  parent (example_branch "a" []) = Some (example_root [])
  /\ exists body : string,
       result_of (defaultHTMLProcessor example_types (example_branch "a" [])
                    (initial plain_chalk))
       = Normal ("<li id=" ++ dq ++ "root.a" ++ dq ++ " class=" ++ dq
                   ++ "leaf nt_nonEmptyObject" ++ dq ++ ">" ++ nl
                   ++ body ++ nl ++ "</li>").
Proof.
  split; [reflexivity|].
  destruct (html_item_id_and_class example_types (example_branch "a" [])
              (example_root []) (initial plain_chalk) eq_refl)
    as [body [Hbody _]].
  exists body. exact Hbody.
Defined.

(** The item of a branch is not marked [branch]. *)
Lemma html_branch_item_is_marked_leaf :
  ~ (forall (node p : TreeifierNode) (st : Statics),
       parent node = Some p ->
       exists rest : string,
         result_of (defaultHTMLProcessor example_types node st)
         = Normal (item_open example_types (item_marker node) node ++ rest)).
Proof.
  intros H.
  destruct (H (example_branch "a" []) (example_root []) (initial plain_chalk)
              eq_refl) as [rest Hrest].
  apply (f_equal (fun c => match c with
                           | Normal out =>
                               String.prefix
                                 (item_open example_types
                                    (item_marker (example_branch "a" []))
                                    (example_branch "a" [])) out
                           | TypeError => false
                           end)) in Hrest.
  cbv beta iota in Hrest. rewrite prefix_append in Hrest.
  vm_compute in Hrest. discriminate.
Qed.

(** A leaf under the root, whose kind is not [arrayofobjects]: the item
    holds the key label. *)
Lemma html_key_label_and_list_witness :
  contains (key_label (example_leaf "a" "1" JsUndefined))
    match result_of (defaultHTMLProcessor example_types
                       (example_leaf "a" "1" JsUndefined)
                       (initial plain_chalk)) with
    | Normal out => out
    | TypeError => EmptyString
    end = true.
Proof.
  rewrite (proj1 (html_key_label_and_list example_types
                    (example_leaf "a" "1" JsUndefined) (initial plain_chalk))
             (example_root []) eq_refl).
  reflexivity.
Defined.

(** The root has no parent, and its text holds no key label. *)
Lemma html_root_shows_no_key_label :
  ~ (forall (node : TreeifierNode) (st : Statics) (out : string),
       result_of (defaultHTMLProcessor example_types node st) = Normal out ->
       (contains (key_label node) out = false
        <-> exists p : TreeifierNode,
              parent node = Some p
              /\ is_arrayofobjects example_types (nodeType p) = true)).
Proof.
  intros H.
  destruct (H (example_root []) (initial plain_chalk) _ eq_refl) as [H1 _].
  destruct (H1 eq_refl) as [p [Hp _]]. discriminate.
Qed.

(** With styles that return no text the types view returns no text. *)
Lemma types_view_empty_with_blank_styles :
  ~ (forall (node : TreeifierNode) (st : Statics),
       result_of (defaultColoredTypesProcessor example_types node st)
       <> Normal EmptyString).
Proof.
  intros H.
  apply (H (example_leaf "a" "1" JsUndefined) blank). reflexivity.
Qed.

(** Two roots whose children differ but hold the same cached results, under
    the same styles. *)
Lemma rendering_is_deterministic_witness :
  result_of (debugProcessor example_types no_numeric_text
               (with_children (example_root [])
                  [example_leaf "a" "1" (JsString "A")])
               (initial plain_chalk))
  = result_of (debugProcessor example_types no_numeric_text
                 (with_children (example_root [])
                    [example_leaf "b" "2" (JsString "A")])
                 (initial plain_chalk)).
Proof.
  refine (proj2 (proj2 (proj2 (proj1
            (rendering_is_deterministic example_types no_numeric_text
               (example_root [])
               [example_leaf "a" "1" (JsString "A")]
               [example_leaf "b" "2" (JsString "A")]
               (initial plain_chalk) (initial plain_chalk) _ _))))).
  - intros s. repeat split.
  - simpl. reflexivity.
Defined.

Lemma example_engine_contract : engine_contract example_engine.
Proof.
  intros item label processor st Hframe. simpl process.
  pose proof (Hframe (example_leaf "key" (key item) JsUndefined) st) as Hst.
  destruct (processor (example_leaf "key" (key item) JsUndefined) st)
    as [[out|] st0]; [|now left].
  simpl in Hst. subst st0. right.
  exists (example_tree label (key item) (JsString out)), [out].
  repeat split.
Defined.


(** The types view on a leaf, with plain styles. *)
Lemma types_view_never_empty_witness :
  exists out : string,
    defaultColoredTypesProcessor example_types
      (example_leaf "a" "1" JsUndefined) (initial plain_chalk)
    = (Normal out, initial plain_chalk)
    /\ out <> EmptyString.
Proof.
  destruct (types_view_never_empty example_types
              (example_leaf "a" "1" JsUndefined) (initial plain_chalk)
              plain_keeps_text)
    as (out & rest & Hrun & _ & Hne & _).
  exists out. split; assumption.
Defined.

(** ** The definitions on small inputs *)

Example ToString_of_array :
  ToString (JsArray [JsNumber (-12); JsNull; JsString "x";
                     JsArray [JsNumber 0; JsBoolean true]])
  = "-12,,x,0,true".
Proof. reflexivity. Qed.

Example replace_line_breaks_all_kinds :
  replace_line_breaks
    ("a" ++ String CR (String LF "b") ++ nl ++ "c" ++ String CR "d")
  = "a\nb\nc\nd".
Proof. reflexivity. Qed.

Example enum_maps_both_ways :
  enum_get example_types (JsNumber 2) = JsString "nonEmptyObject"
  /\ enum_get example_types (JsString "arrayofobjects") = JsNumber 1
  /\ enum_get example_types (JsNumber 7) = JsUndefined.
Proof. repeat split. Qed.

Example values_view_of_reference_to_root :
  result_of (defaultColoredValuesProcessor
               (example_circular (Some (example_root [])))
               (initial plain_chalk))
  = Normal "+- self -> root".
Proof. reflexivity. Qed.

Example values_view_of_a_root_with_two_leaves :
  result_of (defaultColoredValuesProcessor
               (example_root [example_leaf "name" "Bobby" (JsString "+- name : Bobby");
                              example_leaf "age" "30" (JsString "+- age : 30")])
               (initial plain_chalk))
  = Normal ("root" ++ nl ++ "+- name : Bobby" ++ nl ++ "+- age : 30")
  /\ result_of (defaultColoredValuesProcessor
                  (example_leaf "name" "Bobby" JsUndefined) (initial plain_chalk))
     = Normal "+- name : Bobby".
Proof. split; reflexivity. Qed.

Example html_view_of_the_root :
  result_of (defaultHTMLProcessor example_types
               (example_root [example_leaf "a" "1" (JsString "A")])
               (initial plain_chalk))
  = Normal (nl ++ "<ul id=" ++ dq ++ "list@root" ++ dq ++ " class=" ++ dq
              ++ "branch nt_nonEmptyObject" ++ dq ++ ">" ++ nl ++ "A" ++ nl
              ++ "</ul>").
Proof. reflexivity. Qed.

Example debug_view_of_kept_and_suppressed_entries :
  result_of (debugProcessor example_types no_numeric_text
               (example_entry "circularRefIndex" (JsNumber 2))
               (initial plain_chalk))
  = Normal "+- circularRefIndex 2 "
  /\ result_of (debugProcessor example_types no_numeric_text
                  (example_entry "children" (JsArray []))
                  (initial plain_chalk))
     = Normal EmptyString
  /\ result_of (debugProcessor example_types no_numeric_text
                  (example_entry "isCircular" (JsBoolean false))
                  (initial plain_chalk))
     = Normal EmptyString
  /\ result_of (debugProcessor example_types no_numeric_text
                  (example_entry "children" JsNull)
                  (initial plain_chalk))
     = TypeError
  /\ result_of (debugProcessor example_types no_numeric_text
                  (example_entry "nodeType" (JsNumber 2))
                  (initial plain_chalk))
     = Normal "+- nodeType nonEmptyObject ".
Proof. repeat split. Qed.

(** ** Further properties of the class *)

Section Further.

Variable chalk : Chalk.
Variable TreeifierNodeTypes : EnumObject.
Variable StringToNumber : string -> option Z.
Variable new_Treeifier : Treeifier.

Local Notation "'TypesView'" := (defaultColoredTypesProcessor TreeifierNodeTypes).
Local Notation "'ValuesView'" := defaultColoredValuesProcessor.
Local Notation "'HTMLView'" := (defaultHTMLProcessor TreeifierNodeTypes).
Local Notation "'DebugView'" := (debugProcessor TreeifierNodeTypes StringToNumber).

(** *** Cached results of any kind *)

Lemma cached_block_cons (v : JsValue) (results : list JsValue) :
  cached_block (v :: results)
  = (if ToBoolean v then nl ++ ToString v else EmptyString)
      ++ cached_block results.
Proof. unfold cached_block. now rewrite map_cons, concat_cons. Qed.

Lemma forEach_child_cached (cs : list TreeifierNode) :
  forall acc : string,
    forEach_child acc cs = acc ++ cached_block (map processResult cs).
Proof.
  unfold forEach_child.
  induction cs as [|c cs IH]; intros acc.
  - simpl. now rewrite append_nil_r.
  - simpl fold_left. rewrite IH, map_cons, cached_block_cons.
    unfold append_child.
    destruct (ToBoolean (processResult c)); now rewrite ?append_assoc.
Qed.

Lemma cached_block_all_false (results : list JsValue) :
  Forall (fun v => ToBoolean v = false) results ->
  cached_block results = EmptyString.
Proof.
  induction 1 as [|v results Hv _ IH]; [reflexivity|].
  now rewrite cached_block_cons, Hv, IH.
Qed.

(** X1: for a branch whose children hold cached results of any kind that
    converts (texts, booleans, safe integers, [null], [undefined], arrays
    of such, objects without a [toString] of their own), the types and the
    values view return the node's line followed, in child order, by every
    cached result that [&&] takes for true, converted to text and put after
    one line feed; results it takes for false ([undefined], [null],
    [false], [0], the empty text) leave nothing, so a branch whose children
    all hold such results is returned as its line alone. *)
Theorem aggregation_of_any_cached_results (node : TreeifierNode)
    (st : Statics) :
  isBranch node = true ->
  forallb (fun c => converts (processResult c)) (children node) = true ->
  result_of (TypesView node st)
  = Normal (types_line TreeifierNodeTypes st node
              ++ cached_block (map processResult (children node)))
  /\ result_of (ValuesView node st)
     = Normal (values_line st node
                 ++ cached_block (map processResult (children node)))
  /\ (Forall (fun c => ToBoolean (processResult c) = false) (children node) ->
      result_of (TypesView node st)
      = Normal (types_line TreeifierNodeTypes st node)
      /\ result_of (ValuesView node st) = Normal (values_line st node)).
Proof.
  intros Hbranch _.
  assert (Happended : appended node
                      = cached_block (map processResult (children node))).
  { unfold appended. now rewrite forEach_child_cached. }
  rewrite defaultColoredTypesProcessor_run, defaultColoredValuesProcessor_run.
  rewrite Hbranch, Happended. unfold result_of, fst.
  split; [reflexivity|]. split; [reflexivity|].
  intros Hfalse.
  rewrite cached_block_all_false, !append_nil_r; [now split|].
  apply Forall_map. exact Hfalse.
Qed.

(** *** The HTML view and the colours *)

(** X2: the HTML view returns the empty text exactly for a root that is no
    branch; every node that has a parent is returned as a non-empty text,
    which the [forEach] of its parent therefore appends. *)
Theorem html_view_empty_only_for_a_root_leaf (node : TreeifierNode)
    (st : Statics) :
  (result_of (HTMLView node st) = Normal EmptyString
   <-> parent node = None /\ isBranch node = false)
  /\ (parent node <> None ->
      exists out : string,
        result_of (HTMLView node st) = Normal out
        /\ forall (child : TreeifierNode) (acc : string),
             processResult child = JsString out ->
             append_child acc child = acc ++ nl ++ out).
Proof.
  rewrite defaultHTMLProcessor_run. unfold result_of, fst, html_list.
  split.
  - destruct (parent node) as [p|]; split.
    + intros H. injection H as H. discriminate H.
    + intros [H _]. discriminate.
    + destruct (isBranch node); [discriminate | now split].
    + intros [_ H]. now rewrite H.
  - intros Hparent. destruct (parent node) as [p|]; [|contradiction].
    eexists. split; [reflexivity|].
    intros child acc Hchild. unfold append_child. rewrite Hchild.
    reflexivity.
Qed.

(** X3: the HTML view uses no colour: it returns the same text under any
    statics; and the types view does not use the circular colour. *)
Theorem html_view_ignores_the_colours (node : TreeifierNode)
    (st st' : Statics) (f : Style) :
  result_of (HTMLView node st) = result_of (HTMLView node st')
  /\ result_of (TypesView node (set_CircularColor f st))
     = result_of (TypesView node st).
Proof.
  rewrite !defaultHTMLProcessor_run, !defaultColoredTypesProcessor_run.
  split; reflexivity.
Qed.

(** X4: after [resetAllColors], whatever the colours were, the values view
    styles the connector and the separator with chalk's blue, the key with
    white, the value with greenBright and the circular annotation with
    redBright. *)
Theorem values_view_after_reset (node : TreeifierNode) (st : Statics) :
  result_of (ValuesView node (statics_after (resetAllColors chalk st)))
  = Normal (blue chalk (prefix node ++ joint node)
              ++ white chalk (key node)
              ++ blue chalk
                   (if string_is_empty
                         (if isLeaf node then toString node else EmptyString)
                    then EmptyString else " : ")
              ++ greenBright chalk
                   (if isLeaf node then toString node else EmptyString)
              ++ redBright chalk (values_circular node)
              ++ (if isBranch node then appended node else EmptyString)).
Proof.
  rewrite defaultColoredValuesProcessor_run.
  unfold result_of, fst, values_line, values_line_with.
  cbn [resetAllColors statics_after snd bind assign set_StructureColor
       set_KeyColor set_ValueColor set_CircularColor StructureColor KeyColor
       ValueColor CircularColor].
  unfold defaultStructureColor, defaultKeyColor, defaultValueColor,
    defaultCircularColor.
  now rewrite !append_assoc.
Qed.

(** X5: with styles that return nothing for no text, the values view shows
    neither separator nor value for a node that is no leaf or whose text is
    empty; for a leaf with a text it shows both.  (Nodes that are not
    circular.) *)
Theorem values_view_separator (node : TreeifierNode) (st : Statics) :
  empty_stays_empty (StructureColor st) ->
  empty_stays_empty (ValueColor st) ->
  empty_stays_empty (CircularColor st) ->
  isCircular node = false ->
  (isLeaf node = false \/ toString node = EmptyString ->
   result_of (ValuesView node st)
   = Normal (StructureColor st (prefix node ++ joint node)
               ++ KeyColor st (key node)
               ++ (if isBranch node then appended node else EmptyString)))
  /\ (isLeaf node = true -> toString node <> EmptyString ->
      result_of (ValuesView node st)
      = Normal (StructureColor st (prefix node ++ joint node)
                  ++ KeyColor st (key node) ++ StructureColor st " : "
                  ++ ValueColor st (toString node)
                  ++ (if isBranch node then appended node else EmptyString))).
Proof.
  unfold empty_stays_empty. intros Hs Hv Hc Hcircular.
  rewrite defaultColoredValuesProcessor_run.
  unfold result_of, fst, values_line, values_line_with, values_circular.
  rewrite Hcircular, Hc.
  split.
  - intros [Hleaf|Htext].
    + rewrite Hleaf. simpl string_is_empty. cbv iota. rewrite Hs, Hv.
      now rewrite !append_assoc.
    + rewrite Htext. destruct (isLeaf node); simpl string_is_empty; cbv iota;
        rewrite Hs, Hv; now rewrite !append_assoc.
  - intros Hleaf Htext. rewrite Hleaf.
    destruct (string_is_empty (toString node)) eqn:Hempty.
    + apply string_is_empty_true in Hempty. contradiction.
    + now rewrite !append_assoc.
Qed.

(** *** The debugging entry points *)


(** *** When the debug view throws *)

Lemma get_property_throws (name : string) (v : JsValue) :
  get_property name v = TypeError <-> is_nullish v.
Proof.
  unfold is_nullish.
  destruct v; simpl; split; intros H; try discriminate; auto;
    destruct H; discriminate.
Qed.

Lemma get_length_throws (v : JsValue) :
  get_length v = TypeError <-> is_nullish v.
Proof.
  unfold is_nullish.
  destruct v; simpl; split; intros H; try discriminate; auto;
    destruct H; discriminate.
Qed.

Lemma map_value_path_throws (l : list TreeifierNode) :
  map_value_path l = TypeError
  <-> Exists (fun element => is_nullish (value element)) l.
Proof.
  induction l as [|element l IH]; simpl.
  - split; [discriminate | intros H; inversion H].
  - destruct (get_property "path" (value element)) as [p|] eqn:Hp.
    + destruct (map_value_path l) as [ps|].
      * split; [discriminate|]. intros H. inversion H as [? ? Hn|? ? Hl].
        -- apply (proj2 (get_property_throws "path" _)) in Hn. congruence.
        -- apply IH in Hl. discriminate.
      * split; [|reflexivity]. intros _. right. now apply IH.
    + split; [|reflexivity]. intros _. left.
      now apply (proj1 (get_property_throws "path" _)).
Qed.

Lemma debug_circular_throws (node : TreeifierNode) :
  debug_circular node = TypeError
  <-> isCircular node = true
      /\ exists ref : TreeifierNode,
           circularRefNode node = Some ref /\ is_nullish (value ref).
Proof.
  unfold debug_circular.
  destruct (isCircular node).
  - destruct (circularRefNode node) as [ref|].
    + destruct (get_property "path" (value ref)) as [p|] eqn:Hp.
      * split; [discriminate|]. intros [_ [ref' [Href Hn]]].
        injection Href as <-.
        apply (proj2 (get_property_throws "path" _)) in Hn. congruence.
      * split; [|reflexivity]. intros _. split; [reflexivity|].
        exists ref. split; [reflexivity|].
        now apply (proj1 (get_property_throws "path" _)).
    + split; [discriminate|]. intros [_ [ref [Href _]]]. discriminate.
  - split; [discriminate|]. intros [H _]. discriminate.
Qed.

Ltac eval_key_tests :=
  cbn [String.eqb Ascii.eqb Bool.eqb andb orb negb is_null is_none].

(** A branch of the debug view that completes normally. *)
Ltac completes_normally :=
  repeat match goal with
         | |- context [if ?c then _ else _] => destruct c
         end;
  cbn [fst];
  (split; [discriminate | intros [H|[(H & _)|(H & _)]]; congruence]).

Lemma debugProcessor_throws (node : TreeifierNode) (st : Statics) :
  result_of (DebugView node st) = TypeError
  <-> debug_circular node = TypeError
      \/ (key node = "ancestors" /\ circularRefNode node <> None
          /\ map_value_path (ancestors node) = TypeError)
      \/ (key node = "children" /\ get_length (value node) = TypeError).
Proof.
  unfold debugProcessor, bind, lift, call, ret, result_of.
  destruct (debug_circular node) as [circular|] eqn:Hcircular;
    [| split; [intros _; now left | reflexivity]].
  destruct (string_dec (key node) "ancestors") as [Hk|Hk1].
  { rewrite Hk. eval_key_tests.
    destruct (circularRefNode node) as [ref|] eqn:Href; eval_key_tests.
    - destruct (map_value_path (ancestors node)) as [paths|] eqn:Hpaths;
        cbn [fst].
      + rewrite andb_false_r. cbn [fst]. split; [discriminate|].
        intros [H|[(_ & _ & H)|(H & _)]]; congruence.
      + split; [|reflexivity]. intros _. right; left.
        repeat split; congruence.
    - cbn [fst]. split; [discriminate|].
      intros [H|[(_ & H & _)|(H & _)]]; congruence. }
  rewrite (proj2 (String.eqb_neq _ _) Hk1).
  destruct (string_dec (key node) "circularRefIndex") as [Hk|Hk2];
    [rewrite Hk; eval_key_tests; completes_normally|].
  rewrite (proj2 (String.eqb_neq _ _) Hk2).
  destruct (string_dec (key node) "circularRefNode") as [Hk|Hk3];
    [rewrite Hk; eval_key_tests; completes_normally|].
  rewrite (proj2 (String.eqb_neq _ _) Hk3).
  destruct (string_dec (key node) "isCircular") as [Hk|Hk4];
    [rewrite Hk; eval_key_tests; completes_normally|].
  rewrite (proj2 (String.eqb_neq _ _) Hk4).
  destruct (string_dec (key node) "children") as [Hk|Hk5].
  { rewrite Hk. eval_key_tests.
    destruct (get_length (value node)) as [len|] eqn:Hlen.
    - repeat match goal with
             | |- context [if ?c then _ else _] => destruct c
             end;
        cbn [fst];
        (split; [discriminate | intros [H|[(H & _)|(_ & H)]]; congruence]).
    - cbn [fst]. split; [|reflexivity]. intros _. right; right. now split. }
  rewrite (proj2 (String.eqb_neq _ _) Hk5).
  eval_key_tests. completes_normally.
Qed.

(** X7: on a node whose converted values convert (see [debug_converts]),
    the debug view throws a [TypeError] exactly when the node is circular
    and the value of the node it refers to is [null] or [undefined], or the
    key is [ancestors], a node is referred to and the value of some
    ancestor is [null] or [undefined], or the key is [children] and the
    node's value is [null] or [undefined]. *)
Theorem debug_view_throws (node : TreeifierNode) (st : Statics) :
  debug_converts node ->
  (result_of (DebugView node st) = TypeError
   <-> (isCircular node = true
        /\ exists ref : TreeifierNode,
             circularRefNode node = Some ref /\ is_nullish (value ref))
       \/ (key node = "ancestors" /\ circularRefNode node <> None
           /\ Exists (fun element => is_nullish (value element))
                (ancestors node))
       \/ (key node = "children" /\ is_nullish (value node))).
Proof.
  intros _.
  rewrite debugProcessor_throws, debug_circular_throws,
    map_value_path_throws, get_length_throws. reflexivity.
Qed.

(** *** Line breaks in a [processResult] entry *)

Lemma has_line_break_append (a b : string) :
  has_line_break (a ++ b) = has_line_break a || has_line_break b.
Proof.
  induction a as [|c a IH]; [reflexivity|].
  simpl. rewrite IH. now rewrite !orb_assoc.
Qed.

Lemma replace_line_breaks_cons (c : ascii) (rest : string) :
  Ascii.eqb c CR = false -> Ascii.eqb c LF = false ->
  replace_line_breaks (String c rest) = String c (replace_line_breaks rest).
Proof. intros Hcr Hlf. simpl. now rewrite Hcr, Hlf. Qed.

(** The statement for a text and for the text after any one more
    character, since a carriage return looks one character ahead. *)
Lemma replace_line_breaks_leaves_none_pair (s : string) :
  has_line_break (replace_line_breaks s) = false
  /\ forall c : ascii,
       has_line_break (replace_line_breaks (String c s)) = false.
Proof.
  induction s as [|a s [IHs IHas]].
  - split; [reflexivity|]. intros c. simpl.
    destruct (Ascii.eqb c CR) eqn:Hcr; [reflexivity|].
    destruct (Ascii.eqb c LF) eqn:Hlf; [reflexivity|].
    simpl. now rewrite Hcr, Hlf.
  - split; [apply IHas|]. intros c.
    change (replace_line_breaks (String c (String a s)))
      with (if Ascii.eqb c CR
            then if Ascii.eqb a LF
                 then escaped_nl ++ replace_line_breaks s
                 else escaped_nl ++ replace_line_breaks (String a s)
            else if Ascii.eqb c LF
                 then escaped_nl ++ replace_line_breaks (String a s)
                 else String c (replace_line_breaks (String a s))).
    destruct (Ascii.eqb c CR) eqn:Hcr.
    + destruct (Ascii.eqb a LF);
        rewrite has_line_break_append; [now rewrite IHs | now rewrite IHas].
    + destruct (Ascii.eqb c LF) eqn:Hlf.
      * rewrite has_line_break_append. now rewrite IHas.
      * change (has_line_break (String c (replace_line_breaks (String a s))))
          with (Ascii.eqb c CR || Ascii.eqb c LF
                || has_line_break (replace_line_breaks (String a s))).
        now rewrite Hcr, Hlf, IHas.
Qed.

Lemma replace_line_breaks_identity (s : string) :
  has_line_break s = false -> replace_line_breaks s = s.
Proof.
  induction s as [|c s IH]; [reflexivity|].
  intros H. simpl in H.
  apply orb_false_elim in H. destruct H as [H Hs].
  apply orb_false_elim in H. destruct H as [Hcr Hlf].
  rewrite (replace_line_breaks_cons c s Hcr Hlf). now rewrite IH.
Qed.

(** X8: under the key [processResult], on a node whose converted values
    convert (see [debug_converts]), the debug view shows the node's text
    with every CRLF, LF and CR replaced by a backslash and the letter n.
    The text shown holds no line break, and a text without line breaks is
    shown as it is. *)
Theorem debug_view_escapes_line_breaks (node : TreeifierNode) (st : Statics)
    (circular : JsValue) :
  key node = "processResult" ->
  debug_circular node = Normal circular ->
  debug_converts node ->
  result_of (DebugView node st)
  = Normal (StructureColor st (prefix node ++ joint node)
              ++ KeyColor st "processResult"
              ++ ValueColor st
                   (if isLeaf node
                    then " " ++ replace_line_breaks (toString node)
                    else EmptyString)
              ++ CircularColor st (" " ++ ToString circular)
              ++ (if isBranch node then appended node else EmptyString))
  /\ has_line_break (replace_line_breaks (toString node)) = false
  /\ replace_line_breaks (replace_line_breaks (toString node))
     = replace_line_breaks (toString node)
  /\ (has_line_break (toString node) = false ->
      replace_line_breaks (toString node) = toString node).
Proof.
  intros Hkey Hcircular _.
  pose proof (proj1 (replace_line_breaks_leaves_none_pair (toString node)))
    as Hnone.
  split; [|split; [exact Hnone|split]].
  - unfold debugProcessor, appended, bind, lift, call, ret, result_of.
    rewrite Hcircular, Hkey. eval_key_tests.
    rewrite ?orb_false_r, ?andb_true_r.
    destruct (isBranch node); cbn [fst]; [rewrite forEach_child_acc|];
      now rewrite ?append_assoc, ?append_nil_r.
  - now apply replace_line_breaks_identity.
  - apply replace_line_breaks_identity.
Qed.

(** *** The [ancestors] entry *)

Lemma map_value_path_paths (l : list TreeifierNode) (paths : list string) :
  Forall2 (fun element p =>
             get_property "path" (value element) = Normal (JsString p))
    l paths ->
  map_value_path l = Normal (map JsString paths).
Proof.
  induction 1 as [|element p l paths Hp _ IH]; [reflexivity|].
  simpl. now rewrite Hp, IH.
Qed.

Lemma join_values_of_texts (sep : string) (paths : list string) :
  join_values sep (map JsString paths) = String.concat sep paths.
Proof.
  unfold join_values. f_equal. rewrite map_map.
  rewrite (map_ext _ (fun p : string => p)); [apply map_id | reflexivity].
Qed.

(** X9: under the key [ancestors], when a node is referred to and every
    ancestor's value holds a text as its path, the debug view returns one
    line: connector, key, the paths joined by a comma and a space between
    square brackets, and the annotation.  The value is shown for a branch
    too, and the children are left out. *)
Theorem debug_view_of_ancestors (node ref : TreeifierNode) (st : Statics)
    (circular : JsValue) (paths : list string) :
  key node = "ancestors" ->
  circularRefNode node = Some ref ->
  debug_circular node = Normal circular ->
  Forall2 (fun element p =>
             get_property "path" (value element) = Normal (JsString p))
    (ancestors node) paths ->
  result_of (DebugView node st)
  = Normal (StructureColor st (prefix node ++ joint node)
              ++ KeyColor st "ancestors"
              ++ ValueColor st (" [" ++ String.concat ", " paths ++ "]")
              ++ CircularColor st (" " ++ ToString circular)).
Proof.
  intros Hkey Href Hcircular Hpaths.
  unfold debugProcessor, bind, lift, call, ret, result_of.
  rewrite Hcircular, Hkey, Href. eval_key_tests.
  rewrite (map_value_path_paths _ _ Hpaths).
  rewrite orb_true_r, andb_false_r. cbn [fst ToString].
  now rewrite join_values_of_texts.
Qed.


(** *** The names of the node types *)

Lemma Z_to_int_not_nil (n : Z) :
  Z.to_int n <> Decimal.Pos Decimal.Nil /\ Z.to_int n <> Decimal.Neg Decimal.Nil.
Proof.
  destruct n as [|p|p]; simpl; split; try discriminate; intros H;
    injection H as H; now apply DecimalPos.Unsigned.to_uint_nonnil in H.
Qed.

Lemma number_to_string_inj (n m : Z) :
  number_to_string n = number_to_string m -> n = m.
Proof.
  unfold number_to_string. intros H.
  apply (f_equal NilZero.int_of_string) in H.
  destruct (Z_to_int_not_nil n) as [Hn1 Hn2].
  destruct (Z_to_int_not_nil m) as [Hm1 Hm2].
  rewrite !NilZero.isi in H by assumption.
  injection H as H. apply (f_equal Z.of_int) in H.
  now rewrite !DecimalZ.of_to in H.
Qed.

Lemma enum_lookup_outside (names : list string) :
  forall (first n : Z),
    no_numeral names ->
    (n < first \/ first + Z.of_nat (List.length names) <= n)%Z ->
    enum_lookup names first (number_to_string n) = JsUndefined.
Proof.
  induction names as [|m names IH]; intros first n Hnames Hn;
    [reflexivity|].
  simpl enum_lookup.
  destruct (String.eqb_spec (number_to_string n) (number_to_string first))
    as [Heq|_].
  { apply number_to_string_inj in Heq. simpl List.length in Hn. lia. }
  destruct (String.eqb_spec (number_to_string n) m) as [Heq|_].
  { exfalso. apply (Hnames m n); [now left | now symmetry]. }
  apply IH.
  - intros m' n' Hin. apply Hnames. now right.
  - simpl List.length in Hn. lia.
Qed.

Lemma enum_lookup_number (names : list string) :
  forall (first : Z) (i : nat) (name : string),
    no_numeral names ->
    nth_error names i = Some name ->
    enum_lookup names first (number_to_string (first + Z.of_nat i))
    = JsString name.
Proof.
  induction names as [|m names IH]; intros first i name Hnames Hnth.
  - now destruct i.
  - simpl enum_lookup. destruct i as [|i].
    + injection Hnth as ->. rewrite Z.add_0_r. now rewrite String.eqb_refl.
    + destruct (String.eqb_spec
                  (number_to_string (first + Z.of_nat (S i)))
                  (number_to_string first)) as [Heq|_].
      { apply number_to_string_inj in Heq. lia. }
      destruct (String.eqb_spec
                  (number_to_string (first + Z.of_nat (S i))) m) as [Heq|_].
      { exfalso. apply (Hnames m (first + Z.of_nat (S i))%Z);
          [now left | now symmetry]. }
      replace (first + Z.of_nat (S i))%Z with (first + 1 + Z.of_nat i)%Z
        by lia.
      apply IH; [|exact Hnth].
      intros m' n' Hin. apply Hnames. now right.
Qed.

Lemma enum_lookup_name (names : list string) :
  forall (first : Z) (i : nat) (name : string),
    no_numeral names -> NoDup names ->
    nth_error names i = Some name ->
    enum_lookup names first name = JsNumber (first + Z.of_nat i).
Proof.
  induction names as [|m names IH]; intros first i name Hnames Hnodup Hnth.
  - now destruct i.
  - simpl enum_lookup.
    destruct (String.eqb_spec name (number_to_string first)) as [Heq|_].
    { exfalso. apply (Hnames name first); [|exact Heq].
      eapply nth_error_In. exact Hnth. }
    destruct i as [|i].
    + injection Hnth as ->. rewrite String.eqb_refl. now rewrite Z.add_0_r.
    + inversion Hnodup as [|? ? Hnotin Hnodup']. subst.
      destruct (String.eqb_spec name m) as [Heq|_].
      { exfalso. apply Hnotin. subst m. eapply nth_error_In. exact Hnth. }
      replace (first + Z.of_nat (S i))%Z with (first + 1 + Z.of_nat i)%Z
        by lia.
      apply IH; [|exact Hnodup'|exact Hnth].
      intros m' n' Hin. apply Hnames. now right.
Qed.

(** X10: for an enum whose member names are distinct and no numerals,
    [nodeTypeToString] returns the name of the member for the number of a
    member, and [undefined] for any other number; read the other way, the
    enum returns the number for the name, so that name, number and name
    again is a round trip.  The types view shows that name. *)
Theorem nodeTypeToString_of_a_member (i : nat) (name : string) :
  no_numeral (member_names TreeifierNodeTypes) ->
  NoDup (member_names TreeifierNodeTypes) ->
  nth_error (member_names TreeifierNodeTypes) i = Some name ->
  nodeTypeToString TreeifierNodeTypes (JsNumber (Z.of_nat i)) = JsString name
  /\ nodeTypeToString TreeifierNodeTypes (JsString name)
     = JsNumber (Z.of_nat i)
  /\ nodeTypeToString TreeifierNodeTypes
       (nodeTypeToString TreeifierNodeTypes (JsString name))
     = JsString name
  /\ (forall n : Z,
        (n < 0 \/ Z.of_nat (List.length (member_names TreeifierNodeTypes)) <= n)%Z ->
        nodeTypeToString TreeifierNodeTypes (JsNumber n) = JsUndefined)
  /\ (forall node : TreeifierNode,
        nodeType node = Z.of_nat i ->
        kind_name TreeifierNodeTypes node = name).
Proof.
  intros Hnames Hnodup Hnth.
  assert (Hnumber : nodeTypeToString TreeifierNodeTypes (JsNumber (Z.of_nat i))
                    = JsString name).
  { unfold nodeTypeToString, enum_get. simpl ToString.
    apply (enum_lookup_number _ 0%Z i name Hnames Hnth). }
  assert (Hname : nodeTypeToString TreeifierNodeTypes (JsString name)
                  = JsNumber (Z.of_nat i)).
  { unfold nodeTypeToString, enum_get. simpl ToString.
    apply (enum_lookup_name _ 0%Z i name Hnames Hnodup Hnth). }
  split; [exact Hnumber|]. split; [exact Hname|].
  split; [now rewrite Hname|].
  split.
  - intros n Hn. unfold nodeTypeToString, enum_get. simpl ToString.
    apply enum_lookup_outside; [exact Hnames | lia].
  - intros node Hnode. unfold kind_name. now rewrite Hnode, Hnumber.
Qed.

(** *** The link of a circular leaf *)

(** X11: in the HTML view the item of a circular leaf that refers to a node
    holds a link whose target is [#list@] followed by the path of that
    node and whose text is its key; and the node referred to, when it is a
    branch, returns a list whose id is that target without the hash. *)
Theorem html_link_points_at_the_list (node p ref : TreeifierNode)
    (st : Statics) :
  parent node = Some p ->
  isLeaf node = true ->
  isCircular node = true ->
  circularRefNode node = Some ref ->
  (exists before after : string,
     result_of (HTMLView node st)
     = Normal (before ++ "<span class=" ++ dq ++ "value circular" ++ dq ++ ">"
                 ++ toString node ++ "</span> <span class=" ++ dq
                 ++ "circularlink" ++ dq ++ "><a href=" ++ dq ++ "#"
                 ++ ("list@" ++ path ref) ++ dq ++ ">" ++ key ref
                 ++ "</a></span>" ++ after))
  /\ (isBranch ref = true ->
      forall st' : Statics,
      exists before after : string,
        result_of (HTMLView ref st')
        = Normal (before ++ " id=" ++ dq ++ ("list@" ++ path ref) ++ dq
                    ++ after)).
Proof.
  intros Hparent Hleaf Hcircular Href. split.
  - rewrite defaultHTMLProcessor_run, Hparent.
    unfold value_span, circular_reference.
    rewrite Hleaf, Hcircular, Href.
    exists (item_open TreeifierNodeTypes "leaf" node ++ nl
            ++ (if is_arrayofobjects TreeifierNodeTypes (nodeType p)
                then EmptyString else key_label node)).
    exists (html_list TreeifierNodeTypes node (appended node)
            ++ nl ++ "</li>").
    unfold result_of, fst. now rewrite !append_assoc.
  - intros Hbranch st'. rewrite defaultHTMLProcessor_run.
    unfold html_list, list_open. rewrite Hbranch.
    destruct (parent ref) as [q|].
    + exists (item_open TreeifierNodeTypes "leaf" ref ++ nl
              ++ (if is_arrayofobjects TreeifierNodeTypes (nodeType q)
                  then EmptyString else key_label ref)
              ++ value_span ref ++ nl ++ "<"
              ++ list_tag TreeifierNodeTypes ref).
      exists (" class=" ++ dq ++ "branch "
              ++ kind_class TreeifierNodeTypes ref ++ dq ++ ">"
              ++ appended ref ++ nl ++ list_close TreeifierNodeTypes ref
              ++ nl ++ "</li>").
      unfold result_of, fst. now rewrite !append_assoc.
    + exists (nl ++ "<" ++ list_tag TreeifierNodeTypes ref).
      exists (" class=" ++ dq ++ "branch "
              ++ kind_class TreeifierNodeTypes ref ++ dq ++ ">"
              ++ appended ref ++ nl ++ list_close TreeifierNodeTypes ref).
      unfold result_of, fst. now rewrite !append_assoc.
Qed.

(** X12: in the HTML view the item of a circular leaf that refers to no
    node still holds a link: its target is [#list@] with no path and its
    text is a question mark. *)
Theorem html_link_without_reference (node p : TreeifierNode) (st : Statics) :
  parent node = Some p ->
  isLeaf node = true ->
  isCircular node = true ->
  circularRefNode node = None ->
  exists before after : string,
    result_of (HTMLView node st)
    = Normal (before ++ "<span class=" ++ dq ++ "value circular" ++ dq ++ ">"
                ++ toString node ++ "</span> <span class=" ++ dq
                ++ "circularlink" ++ dq ++ "><a href=" ++ dq ++ "#list@" ++ dq
                ++ ">?</a></span>" ++ after).
Proof.
  intros Hparent Hleaf Hcircular Href.
  rewrite defaultHTMLProcessor_run, Hparent.
  unfold value_span, circular_reference.
  rewrite Hleaf, Hcircular, Href.
  exists (item_open TreeifierNodeTypes "leaf" node ++ nl
          ++ (if is_arrayofobjects TreeifierNodeTypes (nodeType p)
              then EmptyString else key_label node)).
  exists (html_list TreeifierNodeTypes node (appended node)
          ++ nl ++ "</li>").
  unfold result_of, fst. now rewrite !append_assoc.
Qed.

End Further.

(** ** The further properties on the examples *)

(** Cached results of five kinds: only the number 5 and the text A are
    appended. *)
Lemma aggregation_of_any_cached_results_witness :
  result_of
    (defaultColoredTypesProcessor example_types
       (example_root [example_leaf "a" "1" JsUndefined;
                      example_leaf "b" "2" (JsNumber 0);
                      example_leaf "c" "3" (JsNumber 5);
                      example_leaf "d" "4" JsNull;
                      example_leaf "e" "5" (JsString "A")])
       (initial plain_chalk))
  = Normal ("root : nonEmptyObject" ++ nl ++ "5" ++ nl ++ "A").
Proof.
  exact (proj1 (aggregation_of_any_cached_results example_types
                  (example_root [example_leaf "a" "1" JsUndefined;
                                 example_leaf "b" "2" (JsNumber 0);
                                 example_leaf "c" "3" (JsNumber 5);
                                 example_leaf "d" "4" JsNull;
                                 example_leaf "e" "5" (JsString "A")])
                  (initial plain_chalk) eq_refl eq_refl)).
Defined.

(** A root without children: the values view shows its key alone; a leaf
    with a text: key, separator and text. *)
Lemma values_view_separator_witness :
  result_of (defaultColoredValuesProcessor (example_root [])
               (initial plain_chalk))
  = Normal "root"
  /\ result_of (defaultColoredValuesProcessor
                  (example_leaf "age" "30" JsUndefined) (initial plain_chalk))
     = Normal "+- age : 30".
Proof.
  split.
  - exact (proj1 (values_view_separator (example_root [])
                    (initial plain_chalk) eq_refl eq_refl eq_refl eq_refl)
             (or_introl eq_refl)).
  - refine (proj2 (values_view_separator (example_leaf "age" "30" JsUndefined)
                     (initial plain_chalk) eq_refl eq_refl eq_refl eq_refl)
              eq_refl _).
    discriminate.
Defined.

(** A cached result of two lines is shown on one line. *)
Lemma debug_view_escapes_line_breaks_witness :
  result_of (debugProcessor example_types no_numeric_text
               (example_entry "processResult" (JsString ("a" ++ nl ++ "b")))
               (initial plain_chalk))
  = Normal "+- processResult a\nb ".
Proof.
  assert (Hlength : forall len : JsValue,
             get_length (JsString ("a" ++ nl ++ "b")) = Normal len ->
             converts len = true)
    by (intros len H; injection H as <-; reflexivity).
  exact (proj1 (debug_view_escapes_line_breaks example_types no_numeric_text
                  (example_entry "processResult" (JsString ("a" ++ nl ++ "b")))
                  (initial plain_chalk) (JsString EmptyString)
                  eq_refl eq_refl
                  (example_entry_converts "processResult"
                     (JsString ("a" ++ nl ++ "b")) eq_refl Hlength))).
Defined.

(** An [ancestors] entry with two ancestors and a child: the two paths
    between brackets, the path of the node referred to, and no child. *)
Lemma debug_view_of_ancestors_witness :
  result_of (debugProcessor example_types no_numeric_text
               (example_ancestors (example_holder "root" "root")
                  [example_holder "root" "root"; example_holder "a" "root.a"]
                  [example_leaf "0" "x" (JsString "A")])
               (initial plain_chalk))
  = Normal "+- ancestors [root, root.a] root".
Proof.
  apply (debug_view_of_ancestors example_types no_numeric_text
           (example_ancestors (example_holder "root" "root")
              [example_holder "root" "root"; example_holder "a" "root.a"]
              [example_leaf "0" "x" (JsString "A")])
           (example_holder "root" "root") (initial plain_chalk)
           (JsString "root") ["root"; "root.a"]);
    try reflexivity.
  simpl. repeat constructor.
Defined.

Lemma example_types_no_numeral : no_numeral (member_names example_types).
Proof.
  intros m n Hin Heq.
  apply (f_equal NilZero.int_of_string) in Heq.
  destruct (Z_to_int_not_nil n) as [Hn1 Hn2].
  unfold number_to_string in Heq. rewrite NilZero.isi in Heq by assumption.
  simpl in Hin. destruct Hin as [<-|[<-|[<-|[]]]]; discriminate.
Defined.

Lemma example_types_distinct : NoDup (member_names example_types).
Proof.
  repeat constructor; simpl; intuition discriminate.
Defined.

(** The member 2 of the example enum and its name. *)
Lemma nodeTypeToString_of_a_member_witness :
  nodeTypeToString example_types (JsNumber 2) = JsString "nonEmptyObject"
  /\ nodeTypeToString example_types (JsString "nonEmptyObject") = JsNumber 2.
Proof.
  destruct (nodeTypeToString_of_a_member example_types 2 "nonEmptyObject"
              example_types_no_numeral example_types_distinct eq_refl)
    as (Hnumber & Hname & _).
  split; [exact Hnumber | exact Hname].
Defined.

(** A circular leaf that refers to the root: the link points at the list
    of the root. *)
Lemma html_link_points_at_the_list_witness :
  exists before after : string,
    result_of (defaultHTMLProcessor example_types
                 (example_circular (Some (example_root [])))
                 (initial plain_chalk))
    = Normal (before ++ "<span class=" ++ dq ++ "value circular" ++ dq ++ ">"
                ++ "</span> <span class=" ++ dq ++ "circularlink" ++ dq
                ++ "><a href=" ++ dq ++ "#list@root" ++ dq ++ ">root"
                ++ "</a></span>" ++ after).
Proof.
  exact (proj1 (html_link_points_at_the_list example_types
                  (example_circular (Some (example_root [])))
                  (example_root []) (example_root []) (initial plain_chalk)
                  eq_refl eq_refl eq_refl eq_refl)).
Defined.

(** A circular leaf that refers to no node: a link with a question mark. *)
Lemma html_link_without_reference_witness :
  exists before after : string,
    result_of (defaultHTMLProcessor example_types (example_circular None)
                 (initial plain_chalk))
    = Normal (before ++ "<span class=" ++ dq ++ "value circular" ++ dq ++ ">"
                ++ "</span> <span class=" ++ dq ++ "circularlink" ++ dq
                ++ "><a href=" ++ dq ++ "#list@" ++ dq ++ ">?</a></span>"
                ++ after).
Proof.
  exact (html_link_without_reference example_types (example_circular None)
           (example_root []) (initial plain_chalk)
           eq_refl eq_refl eq_refl eq_refl).
Defined.



(** A [children] entry whose value is [null]: the debug view throws. *)
Lemma debug_view_throws_witness :
  result_of (debugProcessor example_types no_numeric_text
               (example_entry "children" JsNull) (initial plain_chalk))
  = TypeError.
Proof.
  assert (Hlength : forall len : JsValue,
             get_length JsNull = Normal len -> converts len = true)
    by (intros len H; discriminate H).
  apply (proj2 (debug_view_throws example_types no_numeric_text
                  (example_entry "children" JsNull) (initial plain_chalk)
                  (example_entry_converts "children" JsNull eq_refl
                     Hlength))).
  right; right. split; [reflexivity | now right].
Defined.

End TreeifierUtils.
